(** * CommonAdapter: the PBS / SGE / SLURM queue adapter of FireWorks

    A shallow embedding of
    [fireworks/user_objects/queue_adapters/common_adapter.py] and the
    properties of its construction, job-id parsing, job counting,
    submission and (de)serialisation.

    Conventions of the embedding:
    - Python [str] is the byte string of Python 2 (the code reads
      [p.stdout.read()] as text), embedded as [string];
    - Python values that flow through dictionaries are [pyval];
    - a raised exception is the [Raise] case of [result];
    - the adapter is a [dict] subclass: its items are the field [items],
      its instance attributes are the other fields of [adapter];
    - calls to collaborators (subprocess, command runner, logger) are
      recorded as a list of [event]s next to the returned value. *)

From Stdlib Require Import ZArith Ascii String List Lia.
From stdpp Require Import base option list gmap strings pretty.

Local Open Scope Z_scope.

(** ** Python values and exceptions *)

Inductive pyval :=
| PNone
| PInt (n : Z)
| PStr (s : string).

#[global] Instance pyval_eq_dec : EqDecision pyval.
Proof. solve_decision. Defined.

(** The result of [template.format(args...)]; kept symbolic, so that the
    text of the source's messages stays visible and no [repr] is needed. *)
Inductive fmtarg :=
| FVal (v : pyval)
| FList (l : list string).

Inductive fmt := Format (template : string) (args : list fmtarg).

Inductive exn :=
| ValueError (msg : fmt)
| RuntimeError (msg : string)
| InvalidLiteral (s : string)      (* the ValueError of int() *)
| NotInList (x : string)           (* the ValueError of list.index *)
| TypeError
| AttributeError (attr : string)
| KeyError (key : string)
| IndexError
| UnboundLocalError (var : string).

Inductive result (A : Type) :=
| Ok (x : A)
| Raise (e : exn).
Arguments Ok {A} x.
Arguments Raise {A} e.

(** Sequencing: an exception of the first statement skips the rest.
    This gives [result] the [x ← r; k] notation. *)
#[global] Instance result_bind : MBind result := λ A B k r,
  match r with
  | Ok x => k x
  | Raise e => Raise e
  end.

(** [for x in l: st = body(st, x)], stopping at the first exception. *)
Fixpoint for_each {A S} (body : S → A → result S) (l : list A) (st : S)
  : result S :=
  match l with
  | [] => Ok st
  | x :: l' => st' ← body st x; for_each body l' st'
  end.

(** ** The Python built-ins the adapter uses *)

Module Py.

(** Whitespace of a Python 2 byte string: space, \t, \n, \v, \f, \r. *)
Definition isspace (c : ascii) : bool :=
  let n := N_of_ascii c in
  ((9 <=? n) && (n <=? 13) || (n =? 32))%N.

Definition isdigit (c : ascii) : bool :=
  let n := N_of_ascii c in
  ((48 <=? n) && (n <=? 57))%N.

Definition lower_char (c : ascii) : ascii :=
  let n := N_of_ascii c in
  if ((65 <=? n) && (n <=? 90))%N then ascii_of_N (n + 32) else c.

(** [s.lower()] *)
Fixpoint lower (s : string) : string :=
  match s with
  | EmptyString => EmptyString
  | String c r => String (lower_char c) (lower r)
  end.

(** [s.startswith(p)] *)
Fixpoint startswith (s p : string) : bool :=
  match p, s with
  | EmptyString, _ => true
  | String _ _, EmptyString => false
  | String a p', String b s' => bool_decide (a = b) && startswith s' p'
  end.

(** [needle in s] on strings *)
Fixpoint contains (needle s : string) : bool :=
  startswith s needle ||
  match s with
  | EmptyString => false
  | String _ r => contains needle r
  end.

(** [s[0:n]] for [0 <= n] *)
Fixpoint take (n : nat) (s : string) : string :=
  match n, s with
  | S n', String c r => String c (take n' r)
  | _, _ => EmptyString
  end.

(** [s.split(sep)] for a one-character separator: never empty. *)
Fixpoint split_on (sep : ascii) (s : string) : list string :=
  match s with
  | EmptyString => [EmptyString]
  | String c r =>
      if bool_decide (c = sep) then EmptyString :: split_on sep r
      else match split_on sep r with
           | h :: t => String c h :: t
           | [] => [String c EmptyString]
           end
  end.

(** [s.split()]: the maximal runs of non-whitespace characters. *)
Fixpoint split (s : string) : list string :=
  match s with
  | EmptyString => []
  | String c r =>
      if isspace c then split r
      else match r with
           | EmptyString => [String c EmptyString]
           | String c' _ =>
               if isspace c' then String c EmptyString :: split r
               else match split r with
                    | h :: t => String c h :: t
                    | [] => [String c EmptyString]
                    end
           end
  end.

(** [l.index(x)]: position of the first occurrence. *)
Fixpoint index (l : list string) (x : string) : result Z :=
  match l with
  | [] => Raise (NotInList x)
  | y :: l' => if bool_decide (y = x) then Ok 0
               else i ← index l' x; Ok (i + 1)
  end.

(** [l[i]], a negative [i] counting from the end. *)
Definition getitem {A} (l : list A) (i : Z) : result A :=
  let n := Z.of_nat (length l) in
  let j := if i <? 0 then i + n else i in
  if j <? 0 then Raise IndexError
  else match l !! Z.to_nat j with
       | Some x => Ok x
       | None => Raise IndexError
       end.

Definition digit_value (c : ascii) : Z := Z.of_N (N_of_ascii c) - 48.

Fixpoint digits_value (acc : Z) (s : string) : option Z :=
  match s with
  | EmptyString => Some acc
  | String c r =>
      if isdigit c then digits_value (10 * acc + digit_value c) r
      else None
  end.

Definition nat_literal (s : string) : option Z :=
  match s with
  | EmptyString => None
  | _ => digits_value 0 s
  end.

(** [int(s)] on a string without surrounding whitespace: an optional
    sign and at least one decimal digit. *)
Definition int (s : string) : result Z :=
  let r := match s with
           | String "+" d => nat_literal d
           | String "-" d => Z.opp <$> nat_literal d
           | _ => nat_literal s
           end in
  match r with
  | Some n => Ok n
  | None => Raise (InvalidLiteral s)
  end.

(** The group of [re.search("(\d+)", s)]: skip to the first digit, then
    take digits greedily. *)
Fixpoint digit_run (s : string) : string :=
  match s with
  | String c r => if isdigit c then String c (digit_run r) else EmptyString
  | EmptyString => EmptyString
  end.

Fixpoint search_digits (s : string) : option string :=
  match s with
  | EmptyString => None
  | String c r => if isdigit c then Some (digit_run s) else search_digits r
  end.

(** Truth value of [v] in a condition. *)
Definition truthy (v : pyval) : bool :=
  match v with
  | PNone => false
  | PInt n => negb (n =? 0)
  | PStr s => negb (bool_decide (s = EmptyString))
  end.

(** [d.get(k)] *)
Definition dict_get (d : gmap string pyval) (k : string) : pyval :=
  default PNone (d !! k).

(** [s.endswith(c)] for a one-character [c] *)
Fixpoint endswith_char (s : string) (c : ascii) : bool :=
  match s with
  | EmptyString => false
  | String a EmptyString => bool_decide (a = c)
  | String _ r => endswith_char r c
  end.

(** [os.path.join(a, b)] of [posixpath] *)
Definition path_join (a b : string) : string :=
  if startswith b "/" then b
  else if bool_decide (a = EmptyString) || endswith_char a "/" then a +:+ b
  else a +:+ "/" +:+ b.

End Py.

Definition nl : ascii := "010"%char.
Definition dquote : ascii := "034"%char.

(** ** The adapter *)

(** [CommonAdapter] instances. The class derives from [dict]: [items] are
    the dictionary entries of [self] (the queue parameters given as keyword
    arguments), the other fields are instance attributes. *)
Record adapter := {
  q_type : string;
  template_file : string;
  submit_cmd : string;
  q_name : pyval;
  items : gmap string pyval;
}.

Definition supported_q_types : list string := ["PBS"; "SGE"; "SLURM"].

(** The two [ValueError]s of the class, told apart by their messages. *)
Definition UnsupportedQueueType (q : pyval) : exn :=
  ValueError (Format "{} is not a supported queue type. CommonAdaptor supports {}"
                     [FVal q; FList supported_q_types]).

Definition ScriptNotFound (script_file : string) : exn :=
  ValueError (Format "Cannot find script file located at: {}"
                     [FVal (PStr script_file)]).

Definition JobIdParseError : exn := RuntimeError "Unable to parse jobid".

(** *** Parsing the submission output *)

Definition _parse_jobid (self : adapter) (output_str : string) : result pyval :=
  if bool_decide (q_type self = "SLURM") then
    tok ← Py.getitem (Py.split output_str) 3;
    n ← Py.int tok;
    Ok (PInt n)
  else
    match Py.search_digits output_str with
    | Some m => Ok (PStr m)
    | None => Raise JobIdParseError
    end.

(** *** The status command and its output *)

Definition _get_status_cmd (self : adapter) (username : string) : list string :=
  if bool_decide (q_type self = "SLURM") then
    ["squeue"; "-o " +:+ String dquote ("%u" +:+ String dquote EmptyString);
     "-u"; username]
  else ["qstat"; "-u"; username].

(** The local variables of the loop of [_parse_njobs]; [None] is a local
    that has not been assigned yet. *)
Record njobs_locals := {
  count : Z;
  state_index : option Z;
  queue_index : option Z;
}.

Definition read_local (var : string) (v : option Z) : result Z :=
  match v with
  | Some i => Ok i
  | None => Raise (UnboundLocalError var)
  end.

(** [if l.lower().startswith("job"): ...]: the header assigns both indices. *)
Definition njobs_header (self : adapter) (st : njobs_locals) (l : string)
  : result njobs_locals :=
  if Py.startswith (Py.lower l) "job" then
    let header := Py.split l in
    if bool_decide (q_type self = "PBS") then
      s ← Py.index header "S";
      q ← Py.index header "Queue";
      Ok {| count := count st; state_index := Some (s - 1);
            queue_index := Some (q - 1) |}
    else
      s ← Py.index header "state";
      q ← Py.index header "queue";
      Ok {| count := count st; state_index := Some s; queue_index := Some q |}
  else Ok st.

(** [self["queue"][0:len(tok)] in tok] *)
Definition queue_matches (queue : pyval) (tok : string) : result bool :=
  match queue with
  | PStr q => Ok (Py.contains (Py.take (String.length tok) q) tok)
  | _ => Raise TypeError
  end.

(** [if username in l: ...] *)
Definition njobs_row (self : adapter) (username : string) (st : njobs_locals)
    (l : string) : result njobs_locals :=
  if Py.contains username l then
    let toks := Py.split l in
    si ← read_local "state_index" (state_index st);
    state ← Py.getitem toks si;
    if bool_decide (state ≠ "C") then
      match items self !! "queue" with
      | Some queue =>
          qi ← read_local "queue_index" (queue_index st);
          tok ← Py.getitem toks qi;
          b ← queue_matches queue tok;
          if b : bool then
            Ok {| count := count st + 1; state_index := state_index st;
                  queue_index := queue_index st |}
          else Ok st
      | None => Ok st
      end
    else Ok st
  else Ok st.

Definition njobs_body (self : adapter) (username : string) (st : njobs_locals)
    (l : string) : result njobs_locals :=
  st' ← njobs_header self st l;
  njobs_row self username st' l.

Definition njobs_init : njobs_locals :=
  {| count := 0; state_index := None; queue_index := None |}.

Definition _parse_njobs (self : adapter) (output_str username : string)
  : result Z :=
  if bool_decide (q_type self = "SLURM") then
    let outs := Py.split_on nl output_str in
    Ok (Z.of_nat (length (filter (λ line, Py.contains username line = true) outs)))
  else
    st ← for_each (njobs_body self username) (Py.split_on nl output_str)
          njobs_init;
    Ok (count st).

(** *** Collaborators *)

(** What the adapter asks of its surroundings. [popen] is
    [subprocess.Popen(cmd, ...)] followed by [p.wait()]: [None] when
    launching raises, else the return code, stdout and stderr.
    [command_run] is what happens to the command given to
    [Command(cmd).run(timeout)]. *)
Inductive run_outcome :=
| Exited (status : Z) (out err : string)
| TimedOut (out err : string).

Record world := {
  path_exists : string → bool;
  popen : list string → option (Z * string * string);
  command_run : list string → Z → run_outcome;
  timeout_status : Z;
  getuser : string;
}.

(** Modelled from the spec: the command runner [Command] of
    [fireworks.queue.queue_adapter], which is not part of this file:
    "run(cmd, timeout) -> (exit_code, stdout, stderr)", where a timeout is
    "a failure (no count returned), distinct from a nonzero-exit failure,
    but both surfaced the same way to the caller". The exit code reported
    for a command that was stopped at the timeout is [timeout_status],
    a field of [world]. *)
Definition Command_run (timeout_status : Z) (o : run_outcome)
  : Z * string * string :=
  match o with
  | Exited status out err => (status, out, err)
  | TimedOut out err => (timeout_status, out, err)
  end.

Inductive logcall :=
| LogInfo (msg : fmt)                          (* logger.info(msg) *)
| LogFancy (msgs : list fmt) (level : string)  (* log_fancy(logger, msgs, level) *)
| LogException (msg : fmt).                    (* log_exception(logger, msg) *)

Inductive event :=
| Popen (cmd : list string)
| CommandRun (cmd : list string) (timeout : Z)
| Log (logger : fmt) (call : logcall).

(** [self.get_qlogger('qadapter.{}'.format(self.q_name))] *)
Definition get_qlogger (self : adapter) : fmt :=
  Format "qadapter.{}" [FVal (q_name self)].

(** *** Submission *)

Definition submit_to_queue (w : world) (self : adapter) (script_file : string)
  : result pyval * list event :=
  if negb (path_exists w script_file) then
    (Raise (ScriptNotFound script_file), [])
  else
    let queue_logger := get_qlogger self in
    let cmd := [submit_cmd self; script_file] in
    match popen w cmd with
    | Some (returncode, stdout, stderr) =>
        if returncode =? 0 then
          match _parse_jobid self stdout with
          | Ok job_id =>
              (Ok job_id,
               [Popen cmd;
                Log queue_logger
                  (LogInfo (Format "Job submission was successful and job_id is {}"
                                   [FVal job_id]))])
          | Raise _ =>
              (Ok PNone,
               [Popen cmd;
                Log queue_logger
                  (LogException (Format "Could not parse job id following {}..."
                                        [FVal (PStr (submit_cmd self))]))])
          end
        else
          (Ok PNone,
           [Popen cmd;
            Log queue_logger
              (LogFancy
                 [Format "Error in job submission with {n} file {f} and cmd {c}"
                         [FVal (q_name self); FVal (PStr script_file); FList cmd];
                  Format "The error response reads: {}" [FVal (PStr stderr)]]
                 "error")])
    | None =>
        (Ok PNone,
         [Popen cmd;
          Log queue_logger
            (LogException (Format "Running the command: {} caused an error..."
                                  [FVal (PStr (submit_cmd self))]))])
    end.

(** *** Counting the jobs in the queue *)

Definition get_njobs_in_queue (w : world) (self : adapter)
    (username : option string) : result pyval * list event :=
  let queue_logger := get_qlogger self in
  let username := default (getuser w) username in
  let qstat := _get_status_cmd self username in
  let p := Command_run (timeout_status w) (command_run w qstat 5) in
  if p.1.1 =? 0 then
    match _parse_njobs self p.1.2 username with
    | Ok njobs =>
        (Ok (PInt njobs),
         [CommandRun qstat 5;
          Log queue_logger
            (LogInfo (Format "The number of jobs currently in the queue is: {}"
                             [FVal (PInt njobs)]))])
    | Raise e => (Raise e, [CommandRun qstat 5])
    end
  else
    (Ok PNone,
     [CommandRun qstat 5;
      Log queue_logger
        (LogFancy
           [Format "Error trying to get the number of jobs in the queue" [];
            Format "The error response reads: {}" [FVal (PStr p.2)]]
           "error")]).

(** *** Construction and serialisation *)

(** The names that a keyword argument of [cls(...)] cannot take again:
    the call raises [TypeError] (multiple values for an argument). *)
Definition init_params : list string :=
  ["self"; "q_type"; "q_name"; "template_file"].

Definition bindable (kwargs : gmap string pyval) : bool :=
  forallb (λ k, bool_decide (kwargs !! k = None)) init_params.

(** [not k.startswith("_fw")] on the items of a dictionary *)
Definition not_fw (kv : string * pyval) : Prop :=
  Py.startswith kv.1 "_fw" = false.

#[global] Instance not_fw_dec kv : Decision (not_fw kv).
Proof. unfold not_fw. apply _. Defined.

Section Construction.

(** [os.path.abspath] under the current working directory, the
    directory of this module ([os.path.dirname(__file__)]) and the
    decorator [serialize_fw] of [fireworks.utilities.fw_serializers],
    as a function on the dictionary that [to_dict] returns. *)
Variable abspath : string → string.
Variable module_dir : string.
Variable serialize_fw : gmap string pyval → gmap string pyval.

Definition _get_default_template_file (q_type : string) : string :=
  Py.path_join module_dir (q_type +:+ "_template.txt").

(** The body of [__init__], on its bound arguments: [kwargs] is the
    dictionary of the extra keyword arguments. A template that is no
    string fails in [os.path.abspath], which asks it for [startswith]. *)
Definition __init__ (q_type q_name template_file : pyval)
    (kwargs : gmap string pyval) : result adapter :=
  match q_type with
  | PStr t =>
      if bool_decide (t ∈ supported_q_types) then
        tf ← match template_file with
             | PNone => Ok (_get_default_template_file t)
             | PStr f => Ok (abspath f)
             | PInt _ => Raise (AttributeError "startswith")
             end;
        Ok {| q_type := t;
              template_file := tf;
              submit_cmd := if bool_decide (t = "SLURM") then "sbatch" else "qsub";
              q_name := if Py.truthy q_name then q_name else q_type;
              items := kwargs |}
      else Raise (UnsupportedQueueType q_type)
  | _ => Raise (UnsupportedQueueType q_type)
  end.

(** The body of [to_dict], before the decorator. *)
Definition to_dict_body (self : adapter) : gmap string pyval :=
  let d := items self in
  let d := <["_fw_q_type" := PStr (q_type self)]> d in
  let d := if bool_decide (q_name self ≠ PStr (q_type self))
           then <["_fw_q_name" := q_name self]> d else d in
  let d := if bool_decide (template_file self
                           ≠ _get_default_template_file (q_type self))
           then <["_fw_template_file" := PStr (template_file self)]> d else d in
  d.

Definition to_dict (self : adapter) : gmap string pyval :=
  serialize_fw (to_dict_body self).

Definition from_dict (m_dict : gmap string pyval) : result adapter :=
  match m_dict !! "_fw_q_type" with
  | None => Raise (KeyError "_fw_q_type")
  | Some q_type =>
      let q_name := Py.dict_get m_dict "_fw_q_name" in
      let template_file := Py.dict_get m_dict "_fw_template_file" in
      let kwargs := filter not_fw m_dict in
      if bindable kwargs then __init__ q_type q_name template_file kwargs
      else Raise TypeError
  end.

End Construction.

(** ** Vocabulary of the statements *)

Fixpoint all_chars (P : ascii → bool) (s : string) : bool :=
  match s with
  | EmptyString => true
  | String c r => P c && all_chars P r
  end.

Definition nondigit (c : ascii) : bool := negb (Py.isdigit c).

Definition head_isdigit (s : string) : bool :=
  match s with
  | String c _ => Py.isdigit c
  | EmptyString => false
  end.

(** A run of decimal digits: not empty, digits only. *)
Definition is_digit_run (s : string) : bool :=
  negb (bool_decide (s = EmptyString)) && all_chars Py.isdigit s.

(** A numeric token: digits, after at most one sign. *)
Definition is_numeric (s : string) : bool :=
  match s with
  | String c d =>
      if bool_decide (c = "+"%char) || bool_decide (c = "-"%char)
      then is_digit_run d else is_digit_run s
  | EmptyString => false
  end.

(** A line that [_parse_njobs] reads as the header of the table. *)
Definition is_header (l : string) : bool := Py.startswith (Py.lower l) "job".

(** The lines that the specification counts for PBS and SGE, in its words:
    the username is a substring, the state token is not "C", and when a
    queue is configured the queue token matches its name truncated to the
    token's length. [si] and [qi] are the columns found in the header. *)
Definition counted_row (queue : option string) (si qi : Z)
    (username l : string) : bool :=
  Py.contains username l &&
  match Py.getitem (Py.split l) si with
  | Ok state =>
      bool_decide (state ≠ "C") &&
      match queue with
      | None => true
      | Some q =>
          match Py.getitem (Py.split l) qi with
          | Ok tok => Py.contains (Py.take (String.length tok) q) tok
          | Raise _ => false
          end
      end
  | Raise _ => false
  end.

(** A line of the table that [_parse_njobs] can read with the columns
    [si] and [qi]: no header line, and both tokens are there when the
    username is. *)
Definition readable_row (si qi : Z) (username l : string) : Prop :=
  is_header l = false ∧
  (Py.contains username l = true →
   (∃ state, Py.getitem (Py.split l) si = Ok state) ∧
   (∃ tok, Py.getitem (Py.split l) qi = Ok tok)).

(** The status command failed: it exited with a status that is not 0, or
    it was stopped at the timeout. *)
Definition status_failed (o : run_outcome) : Prop :=
  match o with
  | Exited status _ _ => status ≠ 0
  | TimedOut _ _ => True
  end.

(** What the status command wrote to its standard error. *)
Definition captured_stderr (o : run_outcome) : string :=
  match o with
  | Exited _ _ err => err
  | TimedOut _ err => err
  end.

(** The header line names the state column at [si] and the queue column
    at [qi], counted in the tokens of a row: under PBS the first column
    has the two-word title [Job ID], so the titles [S] and [Queue] stand
    one position further in the header; otherwise the titles are [state]
    and [queue]. *)
Definition header_names (self : adapter) (header : string) (si qi : Z)
  : Prop :=
  is_header header = true ∧
  if bool_decide (q_type self = "PBS") then
    Py.index (Py.split header) "S" = Ok (si + 1)
    ∧ Py.index (Py.split header) "Queue" = Ok (qi + 1)
  else
    Py.index (Py.split header) "state" = Ok si
    ∧ Py.index (Py.split header) "queue" = Ok qi.

(** The number of lines of the output that contain the username. *)
Definition username_lines (username output_str : string) : nat :=
  length (filter (λ l, Py.contains username l = true)
                 (Py.split_on nl output_str)).

(** The keys that [to_dict] writes and [from_dict] reads. *)
Definition reserved_keys : list string :=
  ["_fw_q_type"; "_fw_q_name"; "_fw_template_file"].

(** ** Concrete surroundings, for the examples *)

(** Text made of lines, each ended by a newline. *)
Definition unlines (ls : list string) : string :=
  foldr (λ l r, l +:+ String nl r) EmptyString ls.

(** A path resolver for the working directory [/home/user]; it leaves out
    the normalisation of [..] and repeated slashes. *)
Definition home_abspath (p : string) : string :=
  if Py.startswith p "/" then p else Py.path_join "/home/user" p.

Definition site_dir : string := "/opt/fireworks/user_objects/queue_adapters".

(** A decorator that records the name of the class under [_fw_name]. *)
Definition fw_name_decorator (d : gmap string pyval) : gmap string pyval :=
  <["_fw_name" := PStr "CommonAdapter"]> d.

Definition pbs_adapter (kwargs : gmap string pyval) : adapter :=
  {| q_type := "PBS";
     template_file := _get_default_template_file site_dir "PBS";
     submit_cmd := "qsub";
     q_name := PStr "PBS";
     items := kwargs |}.

Definition slurm_adapter : adapter :=
  {| q_type := "SLURM";
     template_file := _get_default_template_file site_dir "SLURM";
     submit_cmd := "sbatch";
     q_name := PStr "SLURM";
     items := ∅ |}.

(** The confirmation that SGE prints for job 44275. *)
Definition sge_confirmation : string :=
  "Your job 44275 (" +:+ String dquote ("jobname" +:+ String dquote
  ") has been submitted").

(** Output of [qstat -u alice] under PBS: the header and one running job. *)
Definition qstat_one_running : string :=
  unlines
    ["Job ID          Username Queue    Jobname    SessID NDS TSK Memory Time  S Time";
     "1234.server     alice    batch    relax       12345   1   1    --  01:00 R 00:10"].

(** The same table with a completed job and a job in another queue. *)
Definition qstat_three_jobs : string :=
  unlines
    ["Job ID          Username Queue    Jobname    SessID NDS TSK Memory Time  S Time";
     "1234.server     alice    batch    relax       12345   1   1    --  01:00 R 00:10";
     "1235.server     alice    batch    relax       12346   1   1    --  01:00 C 00:10";
     "1236.server     alice    debug    relax       12347   1   1    --  01:00 Q 00:00"].

(** Output in which a job of alice comes before any header line. *)
Definition qstat_no_header : string :=
  unlines
    ["1234.server     alice    batch    relax       12345   1   1    --  01:00 R 00:10"].

(** Output of [qstat -u alice] under SGE, with one running job. *)
Definition qstat_sge : string :=
  unlines
    ["job-ID  prior   name       user         state submit/start at     queue          slots";
     "  44275 0.55500 relax      alice        r     11/04/2026 10:00:00 all.q@node01       1"].


(** A machine on which [qstat] answers [out] with status 0, nothing can be
    submitted and no script exists. *)
Definition qstat_world (out : string) : world :=
  {| path_exists := λ _, false;
     popen := λ _, None;
     command_run := λ _ _, Exited 0 out EmptyString;
     timeout_status := -15;
     getuser := "alice" |}.

(** A machine on which the status command hangs until the timeout. *)
Definition hanging_world : world :=
  {| path_exists := λ _, false;
     popen := λ _, None;
     command_run := λ _ _, TimedOut EmptyString "qstat: cannot connect to server";
     timeout_status := -15;
     getuser := "alice" |}.

(** A machine that has the script [job.sh] and on which launching the
    submit command gives [reply]. *)
Definition submit_world (reply : option (Z * string * string)) : world :=
  {| path_exists := λ f, bool_decide (f = "job.sh");
     popen := λ _, reply;
     command_run := λ _ _, Exited 1 EmptyString "qstat: not found";
     timeout_status := -15;
     getuser := "alice" |}.

(** * Properties *)

(** Splits a conjunction into its parts, and nothing else. *)
Ltac split_conj := repeat match goal with |- _ ∧ _ => split end.

(** ** The built-ins *)

Lemma app_String c (s t : string) : String c s +:+ t = String c (s +:+ t).
Proof. reflexivity. Qed.

Lemma app_Empty (t : string) : EmptyString +:+ t = t.
Proof. reflexivity. Qed.

Lemma bind_Ok {A B} (r : result A) (k : A → result B) x :
  r = Ok x → (r ≫= k) = k x.
Proof. intros ->. reflexivity. Qed.

Lemma bind_Raise {A B} (r : result A) (k : A → result B) e :
  r = Raise e → (r ≫= k) = Raise e.
Proof. intros ->. reflexivity. Qed.

Lemma for_each_app {A S} (body : S → A → result S) (l1 l2 : list A) st :
  for_each body (l1 ++ l2) st = (for_each body l1 st ≫= for_each body l2).
Proof.
  revert st. induction l1 as [|x l1 IH]; intros st; simpl; [reflexivity|].
  destruct (body st x) as [st'|e]; simpl; [apply IH | reflexivity].
Qed.

(** Lines that leave the locals alone are skipped by the loop. *)
Lemma for_each_skip {A S} (body : S → A → result S) (l : list A) st :
  Forall (λ x, body st x = Ok st) l → for_each body l st = Ok st.
Proof.
  induction 1 as [|x l Hx _ IH]; simpl; [reflexivity|].
  rewrite Hx. exact IH.
Qed.

(** An index that is not negative reads the list at that position. *)
Lemma getitem_nonneg {A} (l : list A) (i : Z) :
  0 ≤ i →
  Py.getitem l i = match l !! Z.to_nat i with
                   | Some x => Ok x
                   | None => Raise IndexError
                   end.
Proof.
  intros Hi. unfold Py.getitem.
  destruct (i <? 0) eqn:Hneg; [apply Z.ltb_lt in Hneg; lia|].
  rewrite Hneg. reflexivity.
Qed.

Lemma getitem_short {A} (l : list A) (i : Z) :
  0 ≤ i → (length l ≤ Z.to_nat i)%nat → Py.getitem l i = Raise IndexError.
Proof.
  intros Hi Hlen. rewrite getitem_nonneg by done.
  rewrite (lookup_ge_None_2 l (Z.to_nat i)) by done. reflexivity.
Qed.

(** Every token of [split] is a non-empty run without whitespace. *)
Lemma split_tokens s :
  Forall (λ t, t ≠ EmptyString ∧ all_chars (λ c, negb (Py.isspace c)) t = true)
         (Py.split s).
Proof.
  induction s as [|c r IH]; simpl; [constructor|].
  destruct (Py.isspace c) eqn:Hc; [exact IH|].
  assert (Hone : String c EmptyString ≠ EmptyString
                 ∧ all_chars (λ c, negb (Py.isspace c)) (String c EmptyString) = true).
  { split; [discriminate|]. simpl. rewrite Hc. reflexivity. }
  destruct r as [|c' r'].
  { constructor; [exact Hone | constructor]. }
  destruct (Py.isspace c') eqn:Hc'.
  { constructor; [exact Hone | exact IH]. }
  destruct (Py.split (String c' r')) as [|h t] eqn:Hsplit.
  { constructor; [exact Hone | constructor]. }
  inversion IH as [|? ? [_ Hh] Ht]; subst.
  constructor; [|exact Ht].
  split; [discriminate|]. simpl. rewrite Hc, Hh. reflexivity.
Qed.

(** The digits that [digit_run] takes: all of a run that ends the text or
    stands before a character that is no digit. *)
Lemma digit_run_app run post :
  all_chars Py.isdigit run = true → head_isdigit post = false →
  Py.digit_run (run +:+ post) = run.
Proof.
  intros Hrun Hpost. induction run as [|c r IH].
  - rewrite app_Empty. destruct post as [|c p]; [reflexivity|].
    simpl in *. rewrite Hpost. reflexivity.
  - simpl in Hrun. apply andb_true_iff in Hrun as [Hc Hr].
    rewrite app_String. simpl. rewrite Hc, IH by exact Hr. reflexivity.
Qed.

Lemma search_digits_None s :
  Py.search_digits s = None ↔ all_chars nondigit s = true.
Proof.
  unfold nondigit. induction s as [|c r IH]; simpl; [done|].
  destruct (Py.isdigit c); simpl; [split; discriminate | exact IH].
Qed.

(** [re.search] finds the leftmost run, and all of it. *)
Lemma search_digits_first pre run post :
  all_chars nondigit pre = true → is_digit_run run = true →
  head_isdigit post = false →
  Py.search_digits (pre +:+ run +:+ post) = Some run.
Proof.
  intros Hpre Hrun Hpost. unfold is_digit_run in Hrun.
  apply andb_true_iff in Hrun as [Hne Hall].
  induction pre as [|c p IH].
  - rewrite app_Empty. destruct run as [|c r]; [done|].
    rewrite app_String. simpl in Hall |- *.
    apply andb_true_iff in Hall as [Hc Hr]. rewrite Hc.
    rewrite digit_run_app by done. reflexivity.
  - simpl in Hpre. apply andb_true_iff in Hpre as [Hc Hp].
    rewrite app_String. simpl. unfold nondigit in Hc.
    destruct (Py.isdigit c); [done|]. apply IH, Hp.
Qed.

(** What [search_digits] returns is a run of digits of the text, with no
    digit before it and none right after it. *)
Lemma search_digits_Some s m :
  Py.search_digits s = Some m →
  ∃ pre post, s = pre +:+ m +:+ post ∧ all_chars nondigit pre = true
              ∧ is_digit_run m = true ∧ head_isdigit post = false.
Proof.
  assert (Hrun : ∀ t, ∃ post, t = Py.digit_run t +:+ post
                   ∧ all_chars Py.isdigit (Py.digit_run t) = true
                   ∧ head_isdigit post = false).
  { induction t as [|c r (post & Heq & Hall & Hpost)]; simpl.
    - exists EmptyString. done.
    - destruct (Py.isdigit c) eqn:Hc.
      + exists post. rewrite app_String, <-Heq. simpl. rewrite Hc, Hall. done.
      + exists (String c r). rewrite app_Empty. simpl. rewrite Hc. done. }
  revert m. induction s as [|c r IH]; intros m; simpl; [done|].
  destruct (Py.isdigit c) eqn:Hc.
  - intros [= <-]. destruct (Hrun (String c r)) as (post & Heq & Hall & Hpost).
    exists EmptyString, post. rewrite app_Empty. simpl in *.
    rewrite Hc in *. done.
  - intros (pre & post & -> & Hpre & Hm & Hpost)%IH.
    exists (String c pre), post. rewrite app_String. simpl.
    unfold nondigit at 1. rewrite Hc. done.
Qed.

(** [int] accepts exactly the numeric tokens. *)
Lemma digits_value_Some acc s :
  all_chars Py.isdigit s = true → ∃ n, Py.digits_value acc s = Some n.
Proof.
  revert acc. induction s as [|c r IH]; intros acc; simpl; [eauto|].
  intros [Hc Hr]%andb_true_iff. rewrite Hc. apply IH, Hr.
Qed.

Lemma digits_value_None acc s :
  all_chars Py.isdigit s = false → Py.digits_value acc s = None.
Proof.
  revert acc. induction s as [|c r IH]; intros acc; simpl; [done|].
  destruct (Py.isdigit c); simpl; [apply IH | done].
Qed.

Lemma nat_literal_digit_run s :
  (is_digit_run s = true → ∃ n, Py.nat_literal s = Some n) ∧
  (is_digit_run s = false → Py.nat_literal s = None).
Proof.
  unfold is_digit_run. destruct s as [|c r]; [done|].
  rewrite bool_decide_false by done. cbn [negb andb Py.nat_literal].
  split; [apply digits_value_Some | apply digits_value_None].
Qed.

Lemma int_numeric s :
  (is_numeric s = true → ∃ n, Py.int s = Ok n) ∧
  (is_numeric s = false → Py.int s = Raise (InvalidLiteral s)).
Proof.
  destruct s as [|c d]; [done|].
  unfold is_numeric, Py.int.
  destruct (decide (c = "+"%char)) as [->|Hplus].
  { cbn [bool_decide decide_rel orb].
    destruct (nat_literal_digit_run d) as [Hyes Hno].
    split; intros H.
    - destruct (Hyes H) as [n ->]. eauto.
    - rewrite (Hno H). reflexivity. }
  destruct (decide (c = "-"%char)) as [->|Hminus].
  { cbn [bool_decide decide_rel orb].
    destruct (nat_literal_digit_run d) as [Hyes Hno].
    split; intros H.
    - destruct (Hyes H) as [n ->]. simpl. eauto.
    - rewrite (Hno H). reflexivity. }
  rewrite !bool_decide_false by done. cbn [orb].
  destruct (nat_literal_digit_run (String c d)) as [Hyes Hno].
  assert (Hsame : match String c d with
                  | String "+" d0 => Py.nat_literal d0
                  | String "-" d0 => Z.opp <$> Py.nat_literal d0
                  | _ => Py.nat_literal (String c d)
                  end = Py.nat_literal (String c d)).
  { destruct c as [[] [] [] [] [] [] [] []]; try reflexivity; done. }
  rewrite Hsame. split; intros H.
  - destruct (Hyes H) as [n ->]. eauto.
  - rewrite (Hno H). reflexivity.
Qed.

(** Reading back a number printed in decimal gives the number. *)
Lemma pretty_char_digit d :
  (d < 10)%N →
  Py.isdigit (pretty_N_char d) = true ∧ Py.digit_value (pretty_N_char d) = Z.of_N d.
Proof.
  intros Hd.
  assert (d = 0 ∨ d = 1 ∨ d = 2 ∨ d = 3 ∨ d = 4 ∨ d = 5 ∨ d = 6 ∨ d = 7
          ∨ d = 8 ∨ d = 9)%N as Hcases by lia.
  repeat destruct Hcases as [->|Hcases]; try subst d; split; reflexivity.
Qed.

Lemma digits_value_pretty_go x s :
  ∃ k, 0 ≤ k ∧ ∀ acc,
    Py.digits_value acc (pretty_N_go x s)
    = Py.digits_value (acc * 10 ^ k + Z.of_N x) s.
Proof.
  revert s. induction (N.lt_wf_0 x) as [x _ IH]; intros s.
  destruct (decide (x = 0%N)) as [->|Hx].
  { exists 0. split; [lia|]. intros acc. rewrite pretty_N_go_0.
    f_equal. simpl. lia. }
  rewrite pretty_N_go_step by lia.
  destruct (IH (x `div` 10)%N) with (s := String (pretty_N_char (x `mod` 10)) s)
    as (k & Hk & Hgo).
  { apply N.div_lt; lia. }
  exists (k + 1). split; [lia|]. intros acc. rewrite Hgo. simpl.
  destruct (pretty_char_digit (x `mod` 10)%N) as [-> ->].
  { apply N.mod_lt. lia. }
  f_equal. rewrite Z.pow_add_r, Z.pow_1_r by lia.
  pose proof (N.div_mod x 10 ltac:(lia)) as Hdiv.
  apply (f_equal Z.of_N) in Hdiv.
  rewrite N2Z.inj_add, N2Z.inj_mul in Hdiv. change (Z.of_N 10) with 10 in Hdiv.
  rewrite Hdiv. ring.
Qed.

Lemma int_digits s n :
  0 < n → Py.digits_value 0 s = Some n → Py.int s = Ok n ∧ Py.nat_literal s = Some n.
Proof.
  intros Hn Hs. destruct s as [|c d]; [simpl in Hs; injection Hs; lia|].
  unfold Py.int, Py.nat_literal. simpl in Hs.
  destruct (Py.isdigit c) eqn:Hc; [|done].
  assert (Hsame : match String c d with
                  | String "+" d0 => Py.nat_literal d0
                  | String "-" d0 => Z.opp <$> Py.nat_literal d0
                  | _ => Py.nat_literal (String c d)
                  end = Py.nat_literal (String c d)).
  { destruct c as [[] [] [] [] [] [] [] []]; try reflexivity; done. }
  unfold Py.nat_literal in Hsame. rewrite Hsame. simpl. rewrite Hc, Hs. done.
Qed.

Lemma int_pretty (n : Z) : Py.int (pretty n) = Ok n.
Proof.
  destruct n as [|p|p]; [reflexivity| |].
  - unfold pretty, pretty_Z, pretty, pretty_positive, pretty, pretty_N.
    rewrite decide_False by done.
    destruct (digits_value_pretty_go (N.pos p) EmptyString) as (k & _ & Hgo).
    apply int_digits; [lia|]. rewrite Hgo. simpl. f_equal.
  - unfold pretty, pretty_Z, pretty, pretty_positive, pretty, pretty_N.
    rewrite decide_False by done.
    destruct (digits_value_pretty_go (N.pos p) EmptyString) as (k & _ & Hgo).
    destruct (int_digits (pretty_N_go (N.pos p) EmptyString) (Z.pos p)) as [_ Hlit].
    { lia. } { rewrite Hgo. simpl. f_equal. }
    unfold Py.int. rewrite app_String, app_Empty. rewrite Hlit. reflexivity.
Qed.

(** ** Job identifiers *)

Lemma digit_not_space c : Py.isdigit c = true → Py.isspace c = false.
Proof.
  unfold Py.isdigit, Py.isspace. intros H.
  apply andb_true_iff in H as [H1 H2].
  apply N.leb_le in H1. apply N.leb_le in H2.
  apply orb_false_iff. split; [apply andb_false_iff; right|];
    [apply N.leb_gt | apply N.eqb_neq]; lia.
Qed.

Lemma digits_no_space s :
  all_chars Py.isdigit s = true →
  all_chars (λ c, negb (Py.isspace c)) s = true.
Proof.
  induction s as [|c r IH]; simpl; [done|].
  intros [Hc Hr]%andb_true_iff.
  rewrite (digit_not_space c Hc), IH by exact Hr. reflexivity.
Qed.

Lemma numeric_token s :
  is_numeric s = true →
  s ≠ EmptyString ∧ all_chars (λ c, negb (Py.isspace c)) s = true.
Proof.
  destruct s as [|c d]; [done|]. unfold is_numeric, is_digit_run.
  split; [done|]. revert H.
  destruct (decide (c = "+"%char)) as [->|Hplus];
    [|destruct (decide (c = "-"%char)) as [->|Hminus]].
  - cbn [bool_decide decide_rel orb]. intros [_ Hd]%andb_true_iff.
    simpl. apply digits_no_space, Hd.
  - cbn [bool_decide decide_rel orb]. intros [_ Hd]%andb_true_iff.
    simpl. apply digits_no_space, Hd.
  - rewrite !bool_decide_false by done. cbn [orb].
    intros [_ Hd]%andb_true_iff. apply digits_no_space, Hd.
Qed.

(** A token is its own and only token. *)
Lemma split_token t :
  t ≠ EmptyString → all_chars (λ c, negb (Py.isspace c)) t = true →
  Py.split t = [t].
Proof.
  induction t as [|c r IH]; [done|]. intros _ Hall. simpl in Hall.
  apply andb_true_iff in Hall as [Hc Hr]. apply negb_true_iff in Hc.
  simpl. rewrite Hc. destruct r as [|c' r']; [reflexivity|].
  rewrite IH by done. simpl in Hr.
  apply andb_true_iff in Hr as [Hc' _]. apply negb_true_iff in Hc'.
  rewrite Hc'. reflexivity.
Qed.

(** The unfolding of [split] at a character. *)
Lemma split_cons c r :
  Py.split (String c r)
  = if Py.isspace c then Py.split r
    else match r with
         | EmptyString => [String c EmptyString]
         | String c' _ =>
             if Py.isspace c' then String c EmptyString :: Py.split r
             else match Py.split r with
                  | h :: t => String c h :: t
                  | [] => [String c EmptyString]
                  end
         end.
Proof. reflexivity. Qed.

(** A word followed by a space is the first token. *)
Lemma split_word w rest :
  w ≠ EmptyString → all_chars (λ c, negb (Py.isspace c)) w = true →
  Py.split (w +:+ String " " rest) = w :: Py.split rest.
Proof.
  induction w as [|c r IH]; [done|]. intros _ Hall. simpl in Hall.
  apply andb_true_iff in Hall as [Hc Hr]. apply negb_true_iff in Hc.
  rewrite app_String, split_cons, Hc.
  destruct r as [|c' r'].
  - rewrite app_Empty. cbv beta iota.
    change (Py.isspace " ") with true. cbv beta iota.
    rewrite (split_cons " " rest). reflexivity.
  - rewrite app_String. cbv beta iota.
    assert (Hc' : Py.isspace c' = false).
    { simpl in Hr. apply andb_true_iff in Hr as [Hc' _].
      by apply negb_true_iff in Hc'. }
    rewrite Hc', <-app_String, IH by done. reflexivity.
Qed.

Lemma split_pretty (n : Z) : Py.split (pretty n) = [pretty n].
Proof.
  destruct (int_numeric (pretty n)) as [_ Hno].
  destruct (is_numeric (pretty n)) eqn:Hnum.
  - apply numeric_token in Hnum as [? ?]. by apply split_token.
  - rewrite int_pretty in Hno. by specialize (Hno eq_refl).
Qed.

(** C4. For a SLURM adapter, the job id is the fourth whitespace-delimited
    token of the output of the submit command read as an integer: a
    numeric fourth token gives the integer that [int] reads, a fourth
    token that is not numeric is a parse failure, fewer than four tokens
    are a parse failure, "Submitted batch job 123456" gives 123456, and
    so does every confirmation of that form with the number in decimal. *)
Theorem slurm_jobid_fourth_token (self : adapter) (output_str : string) :
  q_type self = "SLURM" →
  (∀ tok, Py.split output_str !! 3%nat = Some tok → is_numeric tok = true →
     ∃ n, Py.int tok = Ok n ∧ _parse_jobid self output_str = Ok (PInt n))
  ∧ (∀ tok, Py.split output_str !! 3%nat = Some tok → is_numeric tok = false →
     _parse_jobid self output_str = Raise (InvalidLiteral tok))
  ∧ ((length (Py.split output_str) < 4)%nat →
     _parse_jobid self output_str = Raise IndexError)
  ∧ _parse_jobid self "Submitted batch job 123456" = Ok (PInt 123456)
  ∧ (∀ n : Z, _parse_jobid self ("Submitted batch job " +:+ pretty n)
              = Ok (PInt n)).
Proof.
  intros Hslurm. unfold _parse_jobid. rewrite bool_decide_true by done.
  split_conj.
  - intros tok Htok Hnum. destruct (int_numeric tok) as [Hyes _].
    destruct (Hyes Hnum) as [n Hn]. exists n. split; [done|].
    rewrite getitem_nonneg by lia. change (Z.to_nat 3) with 3%nat.
    rewrite Htok. simpl. rewrite Hn. reflexivity.
  - intros tok Htok Hnum. destruct (int_numeric tok) as [_ Hno].
    rewrite getitem_nonneg by lia. change (Z.to_nat 3) with 3%nat.
    rewrite Htok. simpl. rewrite (Hno Hnum). reflexivity.
  - intros Hlen. rewrite getitem_short; [reflexivity | lia |].
    change (Z.to_nat 3) with 3%nat. lia.
  - reflexivity.
  - intros n. rewrite getitem_nonneg by lia. change (Z.to_nat 3) with 3%nat.
    assert (Hsplit : Py.split ("Submitted batch job " +:+ pretty n)
                     = ["Submitted"; "batch"; "job"; pretty n]).
    { change ("Submitted batch job " +:+ pretty n)
        with ("Submitted" +:+ String " " ("batch" +:+ String " "
                ("job" +:+ String " " (pretty n)))).
      rewrite !split_word by done. rewrite split_pretty. reflexivity. }
    rewrite Hsplit. simpl. rewrite int_pretty. reflexivity.
Qed.

Lemma slurm_jobid_fourth_token_witness :
  q_type slurm_adapter = "SLURM"
  ∧ _parse_jobid slurm_adapter "Submitted batch job" = Raise IndexError
  ∧ _parse_jobid slurm_adapter "Submitted batch job 123456" = Ok (PInt 123456).
Proof.
  pose proof (slurm_jobid_fourth_token slurm_adapter "Submitted batch job"
                eq_refl) as (_ & _ & Hshort & Hex & _).
  split; [reflexivity|]. split; [apply Hshort; simpl; lia | exact Hex].
Defined.

(** C5. For PBS and SGE adapters, the job id is the first run of decimal
    digits of the output of the submit command, as text: with no digit
    before the run and none right after it, the run is returned; an output
    without digits raises the parse error; every output is one of the two;
    "1234.servername" gives "1234" and the SGE confirmation of job 44275
    gives "44275". *)
Theorem pbs_sge_jobid_first_digit_run (self : adapter) (output_str : string) :
  q_type self = "PBS" ∨ q_type self = "SGE" →
  (∀ pre run post, output_str = pre +:+ run +:+ post →
     all_chars nondigit pre = true → is_digit_run run = true →
     head_isdigit post = false →
     _parse_jobid self output_str = Ok (PStr run))
  ∧ (all_chars nondigit output_str = true →
     _parse_jobid self output_str = Raise JobIdParseError)
  ∧ ((∃ pre run post, output_str = pre +:+ run +:+ post
        ∧ all_chars nondigit pre = true ∧ is_digit_run run = true
        ∧ head_isdigit post = false)
     ∨ all_chars nondigit output_str = true)
  ∧ _parse_jobid self "1234.servername" = Ok (PStr "1234")
  ∧ _parse_jobid self sge_confirmation = Ok (PStr "44275").
Proof.
  intros Hq. unfold _parse_jobid.
  rewrite bool_decide_false by (destruct Hq as [-> | ->]; discriminate).
  split_conj.
  - intros pre run post -> Hpre Hrun Hpost.
    rewrite search_digits_first by done. reflexivity.
  - intros Hno. apply search_digits_None in Hno. rewrite Hno. reflexivity.
  - destruct (Py.search_digits output_str) as [m|] eqn:Hm.
    + left. apply search_digits_Some in Hm as (pre & post & ? & ? & ? & ?).
      exists pre, m, post. done.
    + right. apply search_digits_None, Hm.
  - reflexivity.
  - reflexivity.
Qed.

Lemma pbs_sge_jobid_first_digit_run_witness :
  (q_type (pbs_adapter ∅) = "PBS" ∨ q_type (pbs_adapter ∅) = "SGE")
  ∧ _parse_jobid (pbs_adapter ∅) "1234.servername" = Ok (PStr "1234")
  ∧ _parse_jobid (pbs_adapter ∅) "no job here" = Raise JobIdParseError.
Proof.
  pose proof (pbs_sge_jobid_first_digit_run (pbs_adapter ∅) "no job here"
                (or_introl eq_refl)) as (_ & Hnone & _ & Hpbs & _).
  split; [left; reflexivity|]. split; [exact Hpbs | apply Hnone; reflexivity].
Defined.

(** ** Counting jobs: the parse of the status output *)

(** A line that is no header leaves the locals as they are. *)
Lemma njobs_header_skip self st l :
  is_header l = false → njobs_header self st l = Ok st.
Proof. unfold is_header, njobs_header. intros ->. reflexivity. Qed.

(** A line without the username counts nothing. *)
Lemma njobs_row_skip self username st l :
  Py.contains username l = false → njobs_row self username st l = Ok st.
Proof. unfold njobs_row. intros ->. reflexivity. Qed.

(** The header never changes the count. *)
Lemma njobs_header_count self st st' l :
  njobs_header self st l = Ok st' → count st' = count st.
Proof.
  unfold njobs_header. destruct (Py.startswith _ _); [|by intros [= <-]].
  destruct (bool_decide _).
  - destruct (Py.index _ "S") as [s|]; [|done].
    destruct (Py.index _ "Queue") as [q|]; [|done]. by intros [= <-].
  - destruct (Py.index _ "state") as [s|]; [|done].
    destruct (Py.index _ "queue") as [q|]; [|done]. by intros [= <-].
Qed.

(** Without a [queue] entry no row is ever counted. *)
Lemma njobs_row_no_queue self username st st' l :
  items self !! "queue" = None →
  njobs_row self username st l = Ok st' → st' = st.
Proof.
  intros Hq. unfold njobs_row. rewrite Hq.
  destruct (Py.contains username l); [|by intros [= <-]].
  destruct (read_local _ _) as [si|]; [|done]. simpl.
  destruct (Py.getitem _ si) as [state|]; [|done]. simpl.
  destruct (bool_decide _); by intros [= <-].
Qed.

Lemma for_each_no_queue self username ls st st' :
  items self !! "queue" = None →
  for_each (njobs_body self username) ls st = Ok st' → count st' = count st.
Proof.
  intros Hq. revert st. induction ls as [|l ls IH]; intros st; cbn [for_each].
  { by intros [= <-]. }
  destruct (njobs_body self username st l) as [st2|] eqn:Hb; simpl; [|done].
  intros Hrest. apply IH in Hrest. rewrite Hrest.
  unfold njobs_body in Hb.
  destruct (njobs_header self st l) as [st1|] eqn:Hh; simpl in Hb; [|done].
  apply njobs_row_no_queue in Hb as ->; [|done].
  by apply njobs_header_count in Hh.
Qed.

(** Whatever the status output, an adapter for PBS or SGE without a
    [queue] entry reports no job at all. *)
Lemma parse_njobs_no_queue_zero self output_str username n :
  q_type self ≠ "SLURM" → items self !! "queue" = None →
  _parse_njobs self output_str username = Ok n → n = 0.
Proof.
  intros Hq Hnone. unfold _parse_njobs. rewrite bool_decide_false by done.
  destruct (for_each _ _ _) as [st|] eqn:Hloop; [|done]. simpl.
  intros [= <-]. by apply for_each_no_queue in Hloop.
Qed.

(** With columns found and a [queue] entry that is a string, a readable
    row is counted exactly when the specification counts it. *)
Lemma njobs_row_counted self username q c si qi l :
  items self !! "queue" = Some (PStr q) →
  readable_row si qi username l →
  njobs_body self username
    {| count := c; state_index := Some si; queue_index := Some qi |} l
  = Ok {| count := c + (if counted_row (Some q) si qi username l then 1 else 0);
          state_index := Some si; queue_index := Some qi |}.
Proof.
  intros Hq [Hhead Hrow]. unfold njobs_body.
  rewrite njobs_header_skip by done. simpl.
  unfold njobs_row, counted_row. rewrite Hq. simpl.
  destruct (Py.contains username l) eqn:Hin; simpl.
  2:{ do 2 f_equal. lia. }
  destruct (Hrow eq_refl) as [[state Hstate] [tok Htok]].
  rewrite Hstate, Htok. simpl.
  destruct (bool_decide (state ≠ "C")); simpl.
  2:{ do 2 f_equal. lia. }
  destruct (Py.contains _ tok); simpl; [reflexivity|]. do 2 f_equal. lia.
Qed.

(** Over readable rows the loop adds the number of rows that the
    specification counts. *)
Lemma for_each_counted self username q si qi ls c :
  items self !! "queue" = Some (PStr q) →
  Forall (readable_row si qi username) ls →
  for_each (njobs_body self username) ls
    {| count := c; state_index := Some si; queue_index := Some qi |}
  = Ok {| count := c + Z.of_nat (length (filter
                      (λ l, counted_row (Some q) si qi username l = true) ls));
          state_index := Some si; queue_index := Some qi |}.
Proof.
  intros Hq Hrows. revert c.
  induction Hrows as [|l ls Hl _ IH]; intros c; cbn [for_each].
  { rewrite filter_nil. simpl. do 2 f_equal. lia. }
  rewrite (njobs_row_counted self username q c si qi l) by done.
  cbn [mbind result_bind]. rewrite IH, filter_cons.
  destruct (counted_row (Some q) si qi username l) eqn:Hc.
  - rewrite decide_True by done. cbn [length]. do 2 f_equal. lia.
  - rewrite decide_False by done. do 2 f_equal. lia.
Qed.

(** A table that starts with its header, read by an adapter with a
    [queue] entry: the count is the number of rows of the specification. *)
Lemma parse_njobs_with_queue self username q header rows si qi st :
  q_type self ≠ "SLURM" →
  items self !! "queue" = Some (PStr q) →
  njobs_body self username njobs_init header
  = Ok {| count := 0; state_index := Some si; queue_index := Some qi |} →
  Forall (readable_row si qi username) rows →
  for_each (njobs_body self username) (header :: rows) njobs_init = Ok st →
  count st = Z.of_nat (length (filter
               (λ l, counted_row (Some q) si qi username l = true) rows)).
Proof.
  intros _ Hq Hheader Hrows. simpl. rewrite Hheader. simpl.
  rewrite (for_each_counted self username q si qi rows 0) by done.
  intros [= <-]. simpl. lia.
Qed.

(** C1. One header row and one running job of the user: the specification
    counts the row, and so does an adapter with a matching [queue] entry,
    but an adapter created without a [queue] entry answers 0, through
    [_parse_njobs] and through [get_njobs_in_queue]. *)
Theorem parse_njobs_without_queue_counts_nothing :
  length (filter (λ l, counted_row None 9 2 "alice" l = true)
                 (Py.split_on nl qstat_one_running)) = 1%nat
  ∧ _parse_njobs (pbs_adapter {["queue" := PStr "batch"]})
                 qstat_one_running "alice" = Ok 1
  ∧ _parse_njobs (pbs_adapter ∅) qstat_one_running "alice" = Ok 0
  ∧ (get_njobs_in_queue (qstat_world qstat_one_running) (pbs_adapter ∅)
                        (Some "alice")).1 = Ok (PInt 0).
Proof. split_conj; vm_compute; reflexivity. Qed.

(** A completed job and a job in another queue are left out when the
    [queue] entry is there. *)
Example parse_njobs_three_jobs :
  _parse_njobs (pbs_adapter {["queue" := PStr "batch"]})
               qstat_three_jobs "alice" = Ok 1.
Proof. vm_compute. reflexivity. Qed.

(** The queue token is searched for the truncated name, it need not start
    with it: the job in queue [debug] is counted for the name [bug]. *)
Example parse_njobs_queue_substring :
  _parse_njobs (pbs_adapter {["queue" := PStr "bug"]})
               qstat_three_jobs "alice" = Ok 1.
Proof. vm_compute. reflexivity. Qed.

(** C10. For PBS and SGE, when a line with the username comes before any
    header line, the column indices are still unset and the parse raises
    instead of returning a count. *)
Theorem parse_njobs_row_before_header
    (self : adapter) (output_str username : string) (pre post : list string)
    (l : string) :
  q_type self = "PBS" ∨ q_type self = "SGE" →
  Py.split_on nl output_str = pre ++ l :: post →
  Forall (λ x, is_header x = false ∧ Py.contains username x = false) pre →
  is_header l = false →
  Py.contains username l = true →
  _parse_njobs self output_str username
  = Raise (UnboundLocalError "state_index").
Proof.
  intros Hq Hsplit Hpre Hhead Hin. unfold _parse_njobs.
  rewrite bool_decide_false by (destruct Hq as [-> | ->]; discriminate).
  rewrite Hsplit, for_each_app.
  rewrite for_each_skip.
  2:{ eapply Forall_impl; [exact Hpre|]. intros x [Hx1 Hx2]. cbv beta.
      unfold njobs_body. rewrite njobs_header_skip by done.
      cbn [mbind result_bind]. by apply njobs_row_skip. }
  cbn [mbind result_bind for_each].
  assert (Hl : njobs_body self username njobs_init l
               = Raise (UnboundLocalError "state_index")).
  { unfold njobs_body. rewrite njobs_header_skip by done.
    cbn [mbind result_bind]. unfold njobs_row. rewrite Hin. reflexivity. }
  rewrite Hl. reflexivity.
Qed.

Lemma parse_njobs_row_before_header_witness :
  (q_type (pbs_adapter ∅) = "PBS" ∨ q_type (pbs_adapter ∅) = "SGE")
  ∧ _parse_njobs (pbs_adapter ∅) qstat_no_header "alice"
    = Raise (UnboundLocalError "state_index").
Proof.
  split; [left; reflexivity|].
  apply (parse_njobs_row_before_header (pbs_adapter ∅) qstat_no_header "alice"
           [] [EmptyString]
           "1234.server     alice    batch    relax       12345   1   1    --  01:00 R 00:10").
  - left; reflexivity.
  - vm_compute; reflexivity.
  - constructor.
  - vm_compute; reflexivity.
  - vm_compute; reflexivity.
Defined.

(** ** Submission and the status query *)

(** Once the script is there, [submit_to_queue] answers with a value. *)
Lemma submit_returns (w : world) (self : adapter) (script_file : string) :
  path_exists w script_file = true →
  ∃ v, (submit_to_queue w self script_file).1 = Ok v.
Proof.
  intros Hex. unfold submit_to_queue. rewrite Hex. cbn [negb].
  destruct (popen w _) as [[[rc out] err]|]; [|by eexists].
  destruct (rc =? 0); [|by eexists].
  destruct (_parse_jobid self out); by eexists.
Qed.

(** The first thing [submit_to_queue] does after the check of the script
    is to launch the submit command, and it launches nothing else. *)
Lemma submit_events (w : world) (self : adapter) (script_file : string) :
  path_exists w script_file = true →
  ∃ call, (submit_to_queue w self script_file).2
          = [Popen [submit_cmd self; script_file]; Log (get_qlogger self) call].
Proof.
  intros Hex. unfold submit_to_queue. rewrite Hex. cbn [negb].
  destruct (popen w _) as [[[rc out] err]|]; [|by eexists].
  destruct (rc =? 0); [|by eexists].
  destruct (_parse_jobid self out); by eexists.
Qed.

(** The status query always runs the status command, once, with a timeout
    of five seconds, before anything else. *)
Lemma njobs_events (w : world) (self : adapter) (username : option string) :
  ∃ log, (get_njobs_in_queue w self username).2
         = CommandRun (_get_status_cmd self (default (getuser w) username)) 5
           :: log
         ∧ ∀ cmd, Popen cmd ∉ log.
Proof.
  unfold get_njobs_in_queue. cbv zeta.
  destruct (_ =? 0); [destruct (_parse_njobs _ _ _)|];
    eexists; (split; [reflexivity|]); intros cmd Hin;
    repeat (apply elem_of_cons in Hin as [Hin|Hin]; [discriminate|]);
    by apply elem_of_nil in Hin.
Qed.

(** C6. With a path at which no file exists, [submit_to_queue] raises the
    error for a missing script, and launches no subprocess. *)
Theorem submit_missing_script_raises
    (w : world) (self : adapter) (script_file : string) :
  path_exists w script_file = false →
  submit_to_queue w self script_file = (Raise (ScriptNotFound script_file), [])
  ∧ ∀ cmd, Popen cmd ∉ (submit_to_queue w self script_file).2.
Proof.
  intros Hex. unfold submit_to_queue. rewrite Hex. cbn [negb].
  split; [reflexivity|]. intros cmd Hin. by apply elem_of_nil in Hin.
Qed.

Lemma submit_missing_script_raises_witness :
  path_exists (qstat_world EmptyString) "job.sh" = false
  ∧ submit_to_queue (qstat_world EmptyString) (pbs_adapter ∅) "job.sh"
    = (Raise (ScriptNotFound "job.sh"), []).
Proof.
  split; [reflexivity|].
  apply (submit_missing_script_raises (qstat_world EmptyString) (pbs_adapter ∅)
           "job.sh" eq_refl).
Defined.

(** C7. A status output that cannot be parsed makes [get_njobs_in_queue]
    raise: the status command of a PBS adapter exits with 0 and prints a
    job of alice without a header line, the call ends in the
    [UnboundLocalError] of the parse and logs nothing. On the same
    machine, a submission whose output has no job id returns [None]. *)
Theorem njobs_parse_failure_propagates :
  get_njobs_in_queue (qstat_world qstat_no_header) (pbs_adapter ∅) None
  = (Raise (UnboundLocalError "state_index"),
     [CommandRun ["qstat"; "-u"; "alice"] 5])
  ∧ (submit_to_queue (submit_world (Some (0, "no job here", EmptyString)))
                     (pbs_adapter ∅) "job.sh").1 = Ok PNone.
Proof. split; vm_compute; reflexivity. Qed.

(** C8. When the status command exits with a status that is not 0, or is
    stopped at the timeout (which the runner reports with a status that is
    not 0), [get_njobs_in_queue] returns [None], which is not the count 0,
    and logs an error that carries what the command wrote to its standard
    error. *)
Theorem njobs_failed_status_no_result
    (w : world) (self : adapter) (username : option string) :
  timeout_status w ≠ 0 →
  status_failed
    (command_run w (_get_status_cmd self (default (getuser w) username)) 5) →
  get_njobs_in_queue w self username
  = (Ok PNone,
     [CommandRun (_get_status_cmd self (default (getuser w) username)) 5;
      Log (get_qlogger self)
        (LogFancy
           [Format "Error trying to get the number of jobs in the queue" [];
            Format "The error response reads: {}"
              [FVal (PStr (captured_stderr
                 (command_run w
                    (_get_status_cmd self (default (getuser w) username)) 5)))]]
           "error")])
  ∧ (get_njobs_in_queue w self username).1 ≠ Ok (PInt 0).
Proof.
  intros Htimeout Hfailed. unfold get_njobs_in_queue. cbv zeta.
  destruct (command_run w _ 5) as [status out err|out err];
    cbn [Command_run status_failed captured_stderr fst snd] in *.
  - rewrite (proj2 (Z.eqb_neq status 0)) by done. done.
  - rewrite (proj2 (Z.eqb_neq (timeout_status w) 0)) by done. done.
Qed.

Lemma njobs_failed_status_no_result_witness :
  timeout_status hanging_world ≠ 0
  ∧ get_njobs_in_queue hanging_world (pbs_adapter ∅) None
    = (Ok PNone,
       [CommandRun ["qstat"; "-u"; "alice"] 5;
        Log (Format "qadapter.{}" [FVal (PStr "PBS")])
          (LogFancy
             [Format "Error trying to get the number of jobs in the queue" [];
              Format "The error response reads: {}"
                [FVal (PStr "qstat: cannot connect to server")]]
             "error")]).
Proof.
  split; [discriminate|].
  apply (njobs_failed_status_no_result hanging_world (pbs_adapter ∅) None);
    [discriminate | exact I].
Defined.

(** ** Construction *)

Lemma supported_cases (t : string) :
  t ∈ supported_q_types ↔ t = "PBS" ∨ t = "SGE" ∨ t = "SLURM".
Proof.
  unfold supported_q_types. rewrite !elem_of_cons, elem_of_nil. tauto.
Qed.

(** What [__init__] builds, when it builds something. *)
Lemma init_Ok abspath module_dir q_type0 q_name0 template kwargs a :
  __init__ abspath module_dir q_type0 q_name0 template kwargs = Ok a →
  ∃ t tf, q_type0 = PStr t ∧ t ∈ supported_q_types
    ∧ match template with
      | PNone => tf = _get_default_template_file module_dir t
      | PStr f => tf = abspath f
      | PInt _ => False
      end
    ∧ a = {| q_type := t;
             template_file := tf;
             submit_cmd := if bool_decide (t = "SLURM") then "sbatch" else "qsub";
             q_name := if Py.truthy q_name0 then q_name0 else PStr t;
             items := kwargs |}.
Proof.
  unfold __init__. destruct q_type0 as [|n|t]; [done|done|].
  destruct (bool_decide (t ∈ supported_q_types)) eqn:Ht; [|done].
  apply bool_decide_eq_true in Ht.
  destruct template as [|n|f]; simpl; [|done|];
    intros [= <-]; eexists _, _; done.
Qed.

(** C3. [__init__] raises the error for an unsupported queue type exactly
    when the queue type is not one of PBS, SGE and SLURM; with each of the
    three, and a template that is left out or given as a path, it builds
    an adapter of that type. *)
Theorem init_unsupported_queue_type
    (abspath : string → string) (module_dir : string)
    (q_type0 q_name0 template : pyval) (kwargs : gmap string pyval) :
  (__init__ abspath module_dir q_type0 q_name0 template kwargs
   = Raise (UnsupportedQueueType q_type0)
   ↔ q_type0 ∉ [PStr "PBS"; PStr "SGE"; PStr "SLURM"])
  ∧ (∀ t, t ∈ ["PBS"; "SGE"; "SLURM"] →
       (∃ a, __init__ abspath module_dir (PStr t) q_name0 PNone kwargs = Ok a
             ∧ q_type a = t)
       ∧ (∀ f, ∃ a, __init__ abspath module_dir (PStr t) q_name0 (PStr f) kwargs
                    = Ok a ∧ q_type a = t)).
Proof.
  split.
  - unfold __init__. destruct q_type0 as [|n|t].
    + split; [|done]. intros _ Hin.
      repeat (apply elem_of_cons in Hin as [Hin|Hin]; [discriminate|]).
      by apply elem_of_nil in Hin.
    + split; [|done]. intros _ Hin.
      repeat (apply elem_of_cons in Hin as [Hin|Hin]; [discriminate|]).
      by apply elem_of_nil in Hin.
    + destruct (bool_decide (t ∈ supported_q_types)) eqn:Ht.
      * apply bool_decide_eq_true, supported_cases in Ht.
        split.
        { destruct template; discriminate. }
        intros Hnot. exfalso. apply Hnot.
        rewrite !elem_of_cons. destruct Ht as [->| [->| ->]]; auto.
      * apply bool_decide_eq_false in Ht. split; [|done]. intros _ Hin.
        apply Ht, supported_cases.
        repeat (apply elem_of_cons in Hin as [[= ->]|Hin]; [auto|]).
        by apply elem_of_nil in Hin.
  - intros t Ht. unfold __init__.
    rewrite bool_decide_true by exact Ht. simpl.
    split; [|intros f]; eexists; split; reflexivity.
Qed.

(** C9. For an adapter that [__init__] built, the submit command follows
    from the queue type alone, [sbatch] for SLURM and [qsub] for PBS and
    SGE, and a submission launches it with the script file as its only
    argument; the status command is [squeue -o "%u" -u username] for SLURM
    and [qstat -u username] for PBS and SGE, and it is the command that
    the status query runs. *)
Theorem commands_follow_queue_type
    (abspath : string → string) (module_dir : string)
    (q_type0 q_name0 template : pyval) (kwargs : gmap string pyval)
    (a : adapter) (w : world) (script_file username : string) :
  __init__ abspath module_dir q_type0 q_name0 template kwargs = Ok a →
  (q_type a = "SLURM" ∧ submit_cmd a = "sbatch"
   ∧ _get_status_cmd a username
     = ["squeue"; String "-" (String "o" (String " " (String dquote
          (String "%" (String "u" (String dquote EmptyString))))));
        "-u"; username]
   ∨ (q_type a = "PBS" ∨ q_type a = "SGE") ∧ submit_cmd a = "qsub"
     ∧ _get_status_cmd a username = ["qstat"; "-u"; username])
  ∧ (path_exists w script_file = true →
     ∃ call, (submit_to_queue w a script_file).2
             = [Popen [submit_cmd a; script_file]; Log (get_qlogger a) call])
  ∧ (∃ log, (get_njobs_in_queue w a (Some username)).2
            = CommandRun (_get_status_cmd a username) 5 :: log
            ∧ ∀ cmd, Popen cmd ∉ log).
Proof.
  intros Hinit. split_conj.
  - apply init_Ok in Hinit as (t & tf & _ & Ht & _ & ->).
    apply supported_cases in Ht as [->| [->| ->]]; cbn; auto.
  - apply submit_events.
  - apply (njobs_events w a (Some username)).
Qed.

Lemma commands_follow_queue_type_witness :
  __init__ home_abspath site_dir (PStr "SLURM") PNone PNone ∅ = Ok slurm_adapter
  ∧ submit_cmd slurm_adapter = "sbatch"
  ∧ (submit_to_queue (submit_world None) slurm_adapter "job.sh").2
    = [Popen ["sbatch"; "job.sh"];
       Log (Format "qadapter.{}" [FVal (PStr "SLURM")])
         (LogException (Format "Running the command: {} caused an error..."
                               [FVal (PStr "sbatch")]))].
Proof.
  pose proof (commands_follow_queue_type home_abspath site_dir (PStr "SLURM")
                PNone PNone ∅ slurm_adapter (submit_world None) "job.sh" "alice"
                eq_refl) as (Hcmd & Hsubmit & _).
  split; [reflexivity|]. split.
  - destruct Hcmd as [(_ & Hs & _) | ([Hq|Hq] & _)];
      [exact Hs | discriminate Hq | discriminate Hq].
  - reflexivity.
Defined.

(** ** Serialisation *)

Lemma startswith_fw_reserved k :
  k ∈ reserved_keys → Py.startswith k "_fw" = true.
Proof.
  unfold reserved_keys. rewrite !elem_of_cons, elem_of_nil.
  intros [->| [->| [->| []]]]; reflexivity.
Qed.

(** [to_dict] leaves the entries alone whose key is none of the three
    that it writes. *)
Lemma to_dict_body_other module_dir (self : adapter) k :
  k ∉ reserved_keys → to_dict_body module_dir self !! k = items self !! k.
Proof.
  unfold reserved_keys. rewrite !not_elem_of_cons. intros (H1 & H2 & H3 & _).
  unfold to_dict_body. repeat case_bool_decide;
    rewrite ?lookup_insert_ne by done; reflexivity.
Qed.

Lemma to_dict_body_q_type module_dir (self : adapter) :
  to_dict_body module_dir self !! "_fw_q_type" = Some (PStr (q_type self)).
Proof.
  unfold to_dict_body. repeat case_bool_decide;
    rewrite ?lookup_insert_ne by done; apply lookup_insert_eq.
Qed.

Lemma to_dict_body_q_name module_dir (self : adapter) :
  items self !! "_fw_q_name" = None →
  to_dict_body module_dir self !! "_fw_q_name"
  = if bool_decide (q_name self ≠ PStr (q_type self))
    then Some (q_name self) else None.
Proof.
  intros Hfree. unfold to_dict_body. repeat case_bool_decide;
    rewrite ?lookup_insert_ne by done; rewrite ?lookup_insert_eq;
    rewrite ?lookup_insert_ne by done; done.
Qed.

Lemma to_dict_body_template_file module_dir (self : adapter) :
  items self !! "_fw_template_file" = None →
  to_dict_body module_dir self !! "_fw_template_file"
  = if bool_decide (template_file self
                    ≠ _get_default_template_file module_dir (q_type self))
    then Some (PStr (template_file self)) else None.
Proof.
  intros Hfree. unfold to_dict_body. repeat case_bool_decide;
    rewrite ?lookup_insert_eq; rewrite ?lookup_insert_ne by done; done.
Qed.

(** The keyword arguments that [from_dict] passes on are the entries
    whose key does not start with [_fw]. *)
Lemma filter_not_fw_lookup (m : gmap string pyval) k :
  filter not_fw m !! k = if Py.startswith k "_fw" then None else m !! k.
Proof.
  destruct (Py.startswith k "_fw") eqn:Hk.
  - apply map_lookup_filter_None. right. intros v _. unfold not_fw. simpl.
    rewrite Hk. discriminate.
  - destruct (m !! k) as [v|] eqn:Hm.
    + apply map_lookup_filter_Some. split; [exact Hm | exact Hk].
    + apply map_lookup_filter_None. left. exact Hm.
Qed.

Lemma home_abspath_idem p : home_abspath (home_abspath p) = home_abspath p.
Proof.
  unfold home_abspath. destruct (Py.startswith p "/") eqn:Hp.
  - rewrite Hp. reflexivity.
  - unfold Py.path_join. rewrite Hp. reflexivity.
Qed.

Lemma fw_name_decorator_keeps d k :
  Py.startswith k "_fw" = false ∨ k ∈ reserved_keys →
  fw_name_decorator d !! k = d !! k.
Proof.
  intros Hk. unfold fw_name_decorator. apply lookup_insert_ne.
  intros <-. destruct Hk as [Hk|Hk]; [discriminate|].
  unfold reserved_keys in Hk. rewrite !elem_of_cons, elem_of_nil in Hk.
  destruct Hk as [Hk| [Hk| [Hk| []]]]; discriminate.
Qed.

Section RoundTrip.

(** The path resolver gives absolute paths, which it leaves as they are;
    the decorator touches no entry of the configuration and none of the
    three entries of [to_dict]. *)
Variable abspath : string → string.
Variable module_dir : string.
Variable serialize_fw : gmap string pyval → gmap string pyval.
Hypothesis abspath_idem : ∀ p, abspath (abspath p) = abspath p.
Hypothesis serialize_fw_keeps : ∀ d k,
  Py.startswith k "_fw" = false ∨ k ∈ reserved_keys →
  serialize_fw d !! k = d !! k.

(** What [__init__] built from keyword arguments without [_fw] keys is
    built again from its [to_dict]. *)
Lemma round_trip_of_init
    (q_type0 q_name0 template : pyval) (kwargs : gmap string pyval)
    (a : adapter) :
  bindable kwargs = true →
  (∀ k, is_Some (kwargs !! k) → Py.startswith k "_fw" = false) →
  __init__ abspath module_dir q_type0 q_name0 template kwargs = Ok a →
  from_dict abspath module_dir (to_dict module_dir serialize_fw a) = Ok a.
Proof.
  intros Hbind Hfw Hinit.
  apply init_Ok in Hinit as (t & tf & -> & Ht & Htf & ->).
  assert (Hfree : ∀ k, Py.startswith k "_fw" = true → kwargs !! k = None).
  { intros k Hk. destruct (kwargs !! k) as [v|] eqn:Hv; [|done].
    rewrite Hfw in Hk by (rewrite Hv; eauto). discriminate. }
  set (a := {| q_type := t; template_file := tf;
               submit_cmd := if bool_decide (t = "SLURM") then "sbatch" else "qsub";
               q_name := if Py.truthy q_name0 then q_name0 else PStr t;
               items := kwargs |}).
  assert (Hkw : filter not_fw (to_dict module_dir serialize_fw a) = kwargs).
  { apply map_eq. intros k. rewrite filter_not_fw_lookup.
    destruct (Py.startswith k "_fw") eqn:Hk.
    - symmetry. by apply Hfree.
    - unfold to_dict. rewrite serialize_fw_keeps by auto.
      apply to_dict_body_other. intros Hin.
      apply startswith_fw_reserved in Hin. congruence. }
  unfold from_dict, Py.dict_get. rewrite Hkw, Hbind.
  unfold to_dict.
  rewrite !serialize_fw_keeps
    by (right; unfold reserved_keys; rewrite !elem_of_cons; auto).
  rewrite to_dict_body_q_type, to_dict_body_q_name, to_dict_body_template_file
    by (apply Hfree; reflexivity).
  unfold __init__. cbn [q_type q_name template_file a].
  rewrite bool_decide_true by exact Ht.
  assert (Hname : (if Py.truthy
                        (default PNone
                           (if bool_decide
                                 ((if Py.truthy q_name0 then q_name0 else PStr t)
                                  ≠ PStr t)
                            then Some (if Py.truthy q_name0 then q_name0 else PStr t)
                            else None))
                   then default PNone
                           (if bool_decide
                                 ((if Py.truthy q_name0 then q_name0 else PStr t)
                                  ≠ PStr t)
                            then Some (if Py.truthy q_name0 then q_name0 else PStr t)
                            else None)
                   else PStr t)
                  = if Py.truthy q_name0 then q_name0 else PStr t).
  { destruct (Py.truthy q_name0) eqn:Hq.
    - case_bool_decide as Hne; simpl.
      + rewrite Hq. reflexivity.
      + congruence.
    - rewrite bool_decide_false by (intros Hne; by apply Hne). reflexivity. }
  rewrite Hname. clear Hname.
  destruct (decide (tf = _get_default_template_file module_dir t)) as [Hdef|Hdef].
  - rewrite (bool_decide_false (tf ≠ _get_default_template_file module_dir t))
      by (intros Hne; by apply Hne). simpl.
    rewrite <-Hdef. reflexivity.
  - rewrite (bool_decide_true (tf ≠ _get_default_template_file module_dir t))
      by done. simpl.
    destruct template as [|n|f]; [done|done|]. subst tf.
    rewrite abspath_idem. reflexivity.
Qed.

(** C2, amended. For every adapter that [__init__] built from keyword
    arguments none of which starts with [_fw], [from_dict] of [to_dict]
    builds the same adapter again: the same queue type, queue name,
    template file, submit command and entries. *)
Theorem from_dict_to_dict_without_fw_keys
    (q_type0 q_name0 template : pyval) (kwargs : gmap string pyval)
    (a : adapter) :
  bindable kwargs = true →
  (∀ k, is_Some (kwargs !! k) → Py.startswith k "_fw" = false) →
  __init__ abspath module_dir q_type0 q_name0 template kwargs = Ok a →
  from_dict abspath module_dir (to_dict module_dir serialize_fw a) = Ok a.
Proof. apply round_trip_of_init. Qed.

End RoundTrip.

Lemma from_dict_to_dict_without_fw_keys_witness :
  ∃ a, __init__ home_abspath site_dir (PStr "SGE") (PStr "long") (PStr "my.txt")
         {["queue" := PStr "all.q"]} = Ok a
       ∧ q_name a = PStr "long"
       ∧ template_file a = "/home/user/my.txt"
       ∧ from_dict home_abspath site_dir (to_dict site_dir fw_name_decorator a)
         = Ok a.
Proof.
  eexists. split; [reflexivity|]. split; [reflexivity|].
  split; [reflexivity|].
  apply (from_dict_to_dict_without_fw_keys home_abspath site_dir
           fw_name_decorator home_abspath_idem fw_name_decorator_keeps
           (PStr "SGE") (PStr "long") (PStr "my.txt")
           {["queue" := PStr "all.q"]}).
  - reflexivity.
  - intros k [v Hk]. apply lookup_singleton_Some in Hk as [<- _]. reflexivity.
  - reflexivity.
Defined.

(** C2, as claimed, fails for a keyword argument whose name starts with
    [_fw]: the adapter built with [_fw_q_name = "mine"] has the queue name
    PBS and that entry, the adapter that [from_dict] builds from its
    [to_dict] has the queue name [mine] and no entry. *)
Lemma from_dict_to_dict_fw_key_lost :
  ∃ a b,
    __init__ home_abspath site_dir (PStr "PBS") PNone PNone
      {["_fw_q_name" := PStr "mine"]} = Ok a
    ∧ from_dict home_abspath site_dir (to_dict site_dir fw_name_decorator a)
      = Ok b
    ∧ q_name a = PStr "PBS" ∧ q_name b = PStr "mine"
    ∧ items a !! "_fw_q_name" = Some (PStr "mine")
    ∧ items b !! "_fw_q_name" = None.
Proof.
  eexists _, _. split; [reflexivity|]. split; [vm_compute; reflexivity|].
  split_conj; reflexivity.
Qed.

(** ** More on counting jobs *)

(** X1. A PBS or SGE adapter without a [queue] entry never reports a job:
    whatever the status output, the parse gives 0 or raises. *)
Theorem njobs_without_queue_entry (self : adapter) (output_str username : string) :
  q_type self ≠ "SLURM" → items self !! "queue" = None →
  _parse_njobs self output_str username = Ok 0
  ∨ ∃ e, _parse_njobs self output_str username = Raise e.
Proof.
  intros Hq Hnone.
  destruct (_parse_njobs self output_str username) as [n|e] eqn:Hn;
    [left | right; by eexists].
  f_equal. by eapply parse_njobs_no_queue_zero.
Qed.

Lemma njobs_without_queue_entry_witness :
  q_type (pbs_adapter ∅) ≠ "SLURM"
  ∧ items (pbs_adapter ∅) !! "queue" = None
  ∧ _parse_njobs (pbs_adapter ∅) qstat_three_jobs "alice" = Ok 0.
Proof.
  split; [discriminate|]. split; [reflexivity|].
  destruct (njobs_without_queue_entry (pbs_adapter ∅) qstat_three_jobs "alice")
    as [H0|[e He]]; [discriminate | reflexivity | exact H0 |].
  exfalso. revert He. vm_compute. discriminate.
Defined.

(** What the header line does to the locals when it names the columns. *)
Lemma njobs_header_names self username header si qi :
  header_names self header si qi →
  Py.contains username header = false →
  njobs_body self username njobs_init header
  = Ok {| count := 0; state_index := Some si; queue_index := Some qi |}.
Proof.
  intros [Hhead Hcols] Hin. unfold njobs_body, njobs_header.
  unfold is_header in Hhead. rewrite Hhead.
  destruct (bool_decide (q_type self = "PBS")); destruct Hcols as [-> ->];
    cbn [mbind result_bind]; rewrite njobs_row_skip by done;
    rewrite ?Z.add_simpl_r; reflexivity.
Qed.

(** X2. With a [queue] entry, a status table that starts with a header
    naming the state and queue columns and whose rows can all be read is
    counted as the specification says: the rows that contain the
    username, whose state is not C and whose queue token contains the
    queue name truncated to the token's length. *)
Theorem njobs_with_queue_entry
    (self : adapter) (output_str username q header : string)
    (rows : list string) (si qi : Z) :
  q_type self ≠ "SLURM" →
  items self !! "queue" = Some (PStr q) →
  Py.split_on nl output_str = header :: rows →
  header_names self header si qi →
  Py.contains username header = false →
  Forall (readable_row si qi username) rows →
  _parse_njobs self output_str username
  = Ok (Z.of_nat (length (filter
          (λ l, counted_row (Some q) si qi username l = true) rows))).
Proof.
  intros Hq Hqueue Hsplit Hhead Hin Hrows. unfold _parse_njobs.
  rewrite bool_decide_false by done. rewrite Hsplit. cbn [for_each].
  rewrite (njobs_header_names self username header si qi) by done.
  cbn [mbind result_bind].
  rewrite (for_each_counted self username q si qi rows 0) by done.
  cbn [mbind result_bind count]. f_equal.
Qed.

Lemma njobs_with_queue_entry_witness :
  _parse_njobs (pbs_adapter {["queue" := PStr "batch"]}) qstat_three_jobs "alice"
  = Ok 1.
Proof.
  apply (njobs_with_queue_entry (pbs_adapter {["queue" := PStr "batch"]})
           qstat_three_jobs "alice" "batch"
           "Job ID          Username Queue    Jobname    SessID NDS TSK Memory Time  S Time"
           ["1234.server     alice    batch    relax       12345   1   1    --  01:00 R 00:10";
            "1235.server     alice    batch    relax       12346   1   1    --  01:00 C 00:10";
            "1236.server     alice    debug    relax       12347   1   1    --  01:00 Q 00:00";
            EmptyString] 9 2).
  - discriminate.
  - reflexivity.
  - vm_compute. reflexivity.
  - split; [reflexivity|]. split; vm_compute; reflexivity.
  - reflexivity.
  - repeat (apply Forall_cons; split); [idtac..|apply Forall_nil].
    all: split;
      first [ reflexivity
            | intros Hin;
              first [ vm_compute in Hin; discriminate Hin
                    | split; eexists; vm_compute; reflexivity ] ].
Defined.

(** A row adds one to the count or nothing, and one only when it contains
    the username. *)
Lemma njobs_row_count self username st st' l :
  njobs_row self username st l = Ok st' →
  count st' = count st
  ∨ (count st' = count st + 1 ∧ Py.contains username l = true).
Proof.
  unfold njobs_row.
  destruct (Py.contains username l) eqn:Hin; [|intros [= <-]; by left].
  destruct (read_local "state_index" _) as [si|]; cbn [mbind result_bind];
    [|done].
  destruct (Py.getitem _ si) as [state|]; cbn [mbind result_bind]; [|done].
  destruct (bool_decide (state ≠ "C")); [|intros [= <-]; by left].
  destruct (items self !! "queue") as [queue|]; [|intros [= <-]; by left].
  destruct (read_local "queue_index" _) as [qi|]; cbn [mbind result_bind];
    [|done].
  destruct (Py.getitem _ qi) as [tok|]; cbn [mbind result_bind]; [|done].
  destruct (queue_matches queue tok) as [[]|]; cbn [mbind result_bind];
    [| |done]; intros [= <-]; [right|left]; done.
Qed.

Lemma for_each_count_bounds self username ls st st' :
  for_each (njobs_body self username) ls st = Ok st' →
  count st ≤ count st'
  ≤ count st
    + Z.of_nat (length (filter (λ l, Py.contains username l = true) ls)).
Proof.
  revert st. induction ls as [|l ls IH]; intros st; cbn [for_each].
  { intros [= <-]. rewrite filter_nil. simpl. lia. }
  destruct (njobs_body self username st l) as [st2|] eqn:Hb;
    cbn [mbind result_bind]; [|done].
  intros Hrest. apply IH in Hrest.
  unfold njobs_body in Hb.
  destruct (njobs_header self st l) as [st1|] eqn:Hh;
    cbn [mbind result_bind] in Hb; [|done].
  apply njobs_header_count in Hh. apply njobs_row_count in Hb.
  rewrite filter_cons.
  destruct Hb as [Hb|[Hb Hin]].
  - destruct (decide (Py.contains username l = true)); cbn [length]; lia.
  - rewrite decide_True by done. cbn [length]. lia.
Qed.

(** X3. For every queue type, a count that the parse returns is not
    negative and not more than the number of lines of the status output
    that contain the username. *)
Theorem njobs_count_bounds (self : adapter) (output_str username : string) (n : Z) :
  _parse_njobs self output_str username = Ok n →
  0 ≤ n ≤ Z.of_nat (username_lines username output_str).
Proof.
  unfold _parse_njobs, username_lines.
  destruct (bool_decide (q_type self = "SLURM")).
  - intros [= <-]. lia.
  - destruct (for_each _ _ _) as [st|] eqn:Hloop; cbn [mbind result_bind];
      [|done].
    intros [= <-]. apply for_each_count_bounds in Hloop. simpl in Hloop. lia.
Qed.

Lemma njobs_count_bounds_witness :
  _parse_njobs (pbs_adapter {["queue" := PStr "batch"]}) qstat_three_jobs "alice"
  = Ok 1
  ∧ username_lines "alice" qstat_three_jobs = 3%nat
  ∧ 0 ≤ 1 ≤ Z.of_nat (username_lines "alice" qstat_three_jobs).
Proof.
  split; [vm_compute; reflexivity|]. split; [vm_compute; reflexivity|].
  apply (njobs_count_bounds (pbs_adapter {["queue" := PStr "batch"]})
           qstat_three_jobs "alice" 1).
  vm_compute. reflexivity.
Defined.

Lemma split_on_nonempty sep s : Py.split_on sep s ≠ [].
Proof.
  destruct s as [|c r]; simpl; [done|].
  destruct (bool_decide (c = sep)); [done|].
  destruct (Py.split_on sep r); done.
Qed.

(** Splitting at a separator splits both sides. *)
Lemma split_on_app sep a b :
  Py.split_on sep (a +:+ String sep b) = Py.split_on sep a ++ Py.split_on sep b.
Proof.
  induction a as [|c r IH].
  - rewrite app_Empty. simpl. rewrite bool_decide_true by done. reflexivity.
  - rewrite app_String. simpl. rewrite IH.
    destruct (bool_decide (c = sep)); [reflexivity|].
    pose proof (split_on_nonempty sep r) as Hne.
    destruct (Py.split_on sep r) as [|h t]; [done|]. reflexivity.
Qed.

(** X4. For SLURM the count goes line by line: it never fails, and the
    count of two outputs joined by a newline is the sum of their counts. *)
Theorem slurm_njobs_of_joined_outputs (self : adapter) (a b username : string) :
  q_type self = "SLURM" →
  ∃ na nb, _parse_njobs self a username = Ok na
    ∧ _parse_njobs self b username = Ok nb
    ∧ _parse_njobs self (a +:+ String nl b) username = Ok (na + nb).
Proof.
  intros Hq. unfold _parse_njobs. rewrite bool_decide_true by done.
  eexists _, _. split; [reflexivity|]. split; [reflexivity|].
  cbv zeta. rewrite split_on_app, filter_app, length_app, Nat2Z.inj_add.
  reflexivity.
Qed.

Lemma slurm_njobs_of_joined_outputs_witness :
  q_type slurm_adapter = "SLURM"
  ∧ ∃ na nb, _parse_njobs slurm_adapter "USER" "alice" = Ok na
      ∧ _parse_njobs slurm_adapter "alice" "alice" = Ok nb
      ∧ _parse_njobs slurm_adapter ("USER" +:+ String nl "alice") "alice"
        = Ok (na + nb).
Proof.
  split; [reflexivity|].
  apply (slurm_njobs_of_joined_outputs slurm_adapter "USER" "alice" "alice").
  reflexivity.
Defined.

Lemma index_not_in (l : list string) (x : string) :
  x ∉ l → Py.index l x = Raise (NotInList x).
Proof.
  induction l as [|y l IH]; [reflexivity|].
  intros [Hne Hnot]%not_elem_of_cons. simpl.
  rewrite bool_decide_false by done. rewrite IH by done. reflexivity.
Qed.

Lemma index_nonneg (l : list string) (x : string) (i : Z) :
  Py.index l x = Ok i → 0 ≤ i.
Proof.
  revert i. induction l as [|y l IH]; intros i; simpl; [done|].
  destruct (bool_decide (y = x)); [intros [= <-]; lia|].
  destruct (Py.index l x) as [j|]; cbn [mbind result_bind]; [|done].
  intros [= <-]. specialize (IH j eq_refl). lia.
Qed.

(** X5. A PBS adapter that meets a header line without the column title
    [S], an SGE table for one, fails with the error of [list.index]. *)
Theorem pbs_header_without_state_title
    (self : adapter) (output_str username : string) (pre post : list string)
    (l : string) :
  q_type self = "PBS" →
  Py.split_on nl output_str = pre ++ l :: post →
  Forall (λ x, is_header x = false ∧ Py.contains username x = false) pre →
  is_header l = true →
  "S" ∉ Py.split l →
  _parse_njobs self output_str username = Raise (NotInList "S").
Proof.
  intros Hq Hsplit Hpre Hhead Hno. unfold _parse_njobs.
  rewrite bool_decide_false by (rewrite Hq; discriminate).
  rewrite Hsplit, for_each_app.
  rewrite for_each_skip.
  2:{ eapply Forall_impl; [exact Hpre|]. intros x [Hx1 Hx2]. cbv beta.
      unfold njobs_body. rewrite njobs_header_skip by done.
      cbn [mbind result_bind]. by apply njobs_row_skip. }
  cbn [mbind result_bind for_each].
  assert (Hl : njobs_body self username njobs_init l = Raise (NotInList "S")).
  { unfold njobs_body, njobs_header. unfold is_header in Hhead.
    rewrite Hhead. rewrite (bool_decide_true (q_type self = "PBS")) by exact Hq.
    rewrite (index_not_in (Py.split l) "S") by exact Hno. reflexivity. }
  rewrite Hl. reflexivity.
Qed.

Lemma pbs_header_without_state_title_witness :
  _parse_njobs (pbs_adapter {["queue" := PStr "all.q"]}) qstat_sge "alice"
  = Raise (NotInList "S").
Proof.
  apply (pbs_header_without_state_title
           (pbs_adapter {["queue" := PStr "all.q"]}) qstat_sge "alice" []
           ["  44275 0.55500 relax      alice        r     11/04/2026 10:00:00 all.q@node01       1";
            EmptyString]
           "job-ID  prior   name       user         state submit/start at     queue          slots").
  - reflexivity.
  - vm_compute. reflexivity.
  - constructor.
  - reflexivity.
  - vm_compute. intros Hin.
    repeat (apply elem_of_cons in Hin as [Hin|Hin]; [discriminate|]).
    by apply elem_of_nil in Hin.
Defined.

Lemma lower_char_j c : Py.lower_char c = "j"%char → c = "j"%char ∨ c = "J"%char.
Proof.
  destruct c as [[] [] [] [] [] [] [] []]; vm_compute; intros H;
    try discriminate H; auto.
Qed.

(** The first token of a header line starts with j or J. *)
Lemma header_first_token l :
  is_header l = true →
  ∃ c h t, Py.split l = String c h :: t ∧ (c = "j"%char ∨ c = "J"%char).
Proof.
  unfold is_header. destruct l as [|c r]; [done|]. cbn [Py.lower Py.startswith].
  intros [Hc _]%andb_true_iff. apply bool_decide_eq_true in Hc.
  symmetry in Hc. apply lower_char_j in Hc.
  assert (Hsp : Py.isspace c = false) by (destruct Hc as [->| ->]; reflexivity).
  rewrite split_cons, Hsp.
  destruct r as [|c' r']; [by eexists _, _, _|].
  destruct (Py.isspace c'); [by eexists _, _, _|].
  destruct (Py.split (String c' r')); by eexists _, _, _.
Qed.

(** X6. After a header line, both column indices are set and neither is
    negative: under PBS, where one is taken off the positions of [S] and
    [Queue], these titles are never the first token of the header, so a
    row is never read from its end. *)
Theorem header_indices_not_negative (self : adapter) (st st' : njobs_locals)
    (l : string) :
  is_header l = true →
  njobs_header self st l = Ok st' →
  ∃ si qi, state_index st' = Some si ∧ queue_index st' = Some qi
           ∧ 0 ≤ si ∧ 0 ≤ qi ∧ count st' = count st.
Proof.
  intros Hhead. destruct (header_first_token l Hhead) as (c & h & t & Hsplit & Hc).
  unfold njobs_header. unfold is_header in Hhead. rewrite Hhead, Hsplit.
  destruct (bool_decide (q_type self = "PBS")).
  - cbn [Py.index].
    rewrite !bool_decide_false by (destruct Hc as [->| ->]; discriminate).
    destruct (Py.index t "S") as [s|] eqn:Hs; cbn [mbind result_bind]; [|done].
    destruct (Py.index t "Queue") as [q|] eqn:Hq; cbn [mbind result_bind]; [|done].
    intros [= <-]. apply index_nonneg in Hs, Hq.
    eexists _, _. cbn. split_conj; try reflexivity; lia.
  - destruct (Py.index _ "state") as [s|] eqn:Hs; cbn [mbind result_bind]; [|done].
    destruct (Py.index _ "queue") as [q|] eqn:Hq; cbn [mbind result_bind]; [|done].
    intros [= <-]. apply index_nonneg in Hs, Hq.
    eexists _, _. cbn. split_conj; try reflexivity; lia.
Qed.

Lemma header_indices_not_negative_witness :
  ∃ st',
    njobs_header (pbs_adapter ∅) njobs_init
      "Job ID          Username Queue    Jobname    SessID NDS TSK Memory Time  S Time"
    = Ok st'
    ∧ ∃ si qi, state_index st' = Some si ∧ queue_index st' = Some qi
               ∧ 0 ≤ si ∧ 0 ≤ qi ∧ count st' = count njobs_init.
Proof.
  eexists. split; [vm_compute; reflexivity|].
  apply (header_indices_not_negative (pbs_adapter ∅) njobs_init _
           "Job ID          Username Queue    Jobname    SessID NDS TSK Memory Time  S Time").
  - reflexivity.
  - vm_compute. reflexivity.
Defined.

Lemma startswith_refl s : Py.startswith s s = true.
Proof.
  induction s as [|c r IH]; [reflexivity|]. simpl.
  rewrite bool_decide_true by done. exact IH.
Qed.

Lemma contains_startswith needle s :
  Py.startswith s needle = true → Py.contains needle s = true.
Proof. destruct s; simpl; intros ->; reflexivity. Qed.

(** A text cut to the length of its prefix is the prefix. *)
Lemma take_prefix q tok :
  Py.startswith q tok = true → Py.take (String.length tok) q = tok.
Proof.
  revert q. induction tok as [|c r IH]; intros q; [by destruct q|].
  destruct q as [|c' q']; [done|]. simpl.
  intros [Hc Hr]%andb_true_iff. apply bool_decide_eq_true in Hc as ->.
  rewrite IH by done. reflexivity.
Qed.

Lemma take_short q n :
  (String.length q ≤ n)%nat → Py.take n q = q.
Proof.
  revert n. induction q as [|c r IH]; intros n; [by destruct n|].
  destruct n as [|n]; simpl; [lia|]. intros Hn. rewrite IH by lia. reflexivity.
Qed.

(** X7. The queue test of a row: a queue token that the status table cut
    off, a prefix of the queue name, matches; a queue name that is not
    longer than the token matches exactly when it occurs somewhere in the
    token; an entry that is no string is a type error. *)
Theorem queue_token_match (q tok : string) :
  (Py.startswith q tok = true → queue_matches (PStr q) tok = Ok true)
  ∧ ((String.length q ≤ String.length tok)%nat →
     queue_matches (PStr q) tok = Ok (Py.contains q tok))
  ∧ (∀ n, queue_matches (PInt n) tok = Raise TypeError)
  ∧ queue_matches PNone tok = Raise TypeError.
Proof.
  unfold queue_matches. split_conj; try done.
  - intros Hpre. rewrite take_prefix by done.
    rewrite contains_startswith by apply startswith_refl. reflexivity.
  - intros Hlen. rewrite take_short by done. reflexivity.
Qed.

(** ** More on submission and the status query *)

(** X8. Once the script exists, [submit_to_queue] never raises, whatever
    the submit command does: it returns a value, launches the submit
    command on the script once, and logs once to the logger of the
    queue. *)
Theorem submit_with_script_never_raises
    (w : world) (self : adapter) (script_file : string) :
  path_exists w script_file = true →
  ∃ v call,
    submit_to_queue w self script_file
    = (Ok v, [Popen [submit_cmd self; script_file];
              Log (get_qlogger self) call]).
Proof.
  intros Hex. unfold submit_to_queue. rewrite Hex. cbn [negb].
  destruct (popen w _) as [[[rc out] err]|]; [|by eexists _, _].
  destruct (rc =? 0); [|by eexists _, _].
  destruct (_parse_jobid self out); by eexists _, _.
Qed.

Lemma submit_with_script_never_raises_witness :
  path_exists (submit_world (Some (1, EmptyString, "qsub: unknown queue")))
              "job.sh" = true
  ∧ ∃ v call,
      submit_to_queue (submit_world (Some (1, EmptyString, "qsub: unknown queue")))
                      (pbs_adapter ∅) "job.sh"
      = (Ok v, [Popen ["qsub"; "job.sh"];
                Log (Format "qadapter.{}" [FVal (PStr "PBS")]) call]).
Proof.
  split; [reflexivity|].
  apply (submit_with_script_never_raises
           (submit_world (Some (1, EmptyString, "qsub: unknown queue")))
           (pbs_adapter ∅) "job.sh").
  reflexivity.
Defined.

(** A job id is a number or a text, never [None]. *)
Lemma parse_jobid_not_None self output_str v :
  _parse_jobid self output_str = Ok v → v ≠ PNone.
Proof.
  unfold _parse_jobid. destruct (bool_decide _).
  - destruct (Py.getitem _ 3) as [tok|]; cbn [mbind result_bind]; [|done].
    destruct (Py.int tok); cbn [mbind result_bind]; [|done].
    by intros [= <-].
  - destruct (Py.search_digits _); [|done]. by intros [= <-].
Qed.

(** X9. With the script in place, [submit_to_queue] returns a job id
    exactly when the submit command could be launched, exited with 0 and
    printed an output in which [_parse_jobid] finds the id; in every
    other case it returns [None]. *)
Theorem submit_returns_job_id_iff
    (w : world) (self : adapter) (script_file : string) (v : pyval) :
  path_exists w script_file = true →
  ((submit_to_queue w self script_file).1 = Ok v ∧ v ≠ PNone
   ↔ ∃ out err, popen w [submit_cmd self; script_file] = Some (0, out, err)
                ∧ _parse_jobid self out = Ok v)
  ∧ ((submit_to_queue w self script_file).1 = Ok PNone
     ∨ ∃ job_id, (submit_to_queue w self script_file).1 = Ok job_id
                 ∧ job_id ≠ PNone).
Proof.
  intros Hex. unfold submit_to_queue. rewrite Hex. cbn [negb].
  destruct (popen w _) as [[[rc out] err]|].
  2:{ split; [|by left]. split; [intros [[= <-] Hv]; done|].
      intros (? & ? & ? & _); done. }
  destruct (rc =? 0) eqn:Hrc.
  2:{ apply Z.eqb_neq in Hrc. split; [|by left].
      split; [intros [[= <-] Hv]; done|].
      intros (? & ? & [= -> _ _] & _); done. }
  apply Z.eqb_eq in Hrc as ->.
  destruct (_parse_jobid self out) as [job_id|e] eqn:Hparse.
  - split.
    + split.
      * intros [[= <-] _]. by eexists _, _.
      * intros (out' & err' & [= <- _] & Hv). rewrite Hparse in Hv.
        injection Hv as <-. split; [reflexivity|].
        by eapply parse_jobid_not_None.
    + right. eexists. split; [reflexivity|]. by eapply parse_jobid_not_None.
  - split; [|by left]. split; [intros [[= <-] Hv]; done|].
    intros (out' & err' & [= <- _] & Hv). rewrite Hparse in Hv. done.
Qed.

Lemma submit_returns_job_id_iff_witness :
  path_exists (submit_world (Some (0, "1234.server", EmptyString))) "job.sh"
  = true
  ∧ (submit_to_queue (submit_world (Some (0, "1234.server", EmptyString)))
                     (pbs_adapter ∅) "job.sh").1 = Ok (PStr "1234").
Proof.
  split; [reflexivity|].
  apply (submit_returns_job_id_iff
           (submit_world (Some (0, "1234.server", EmptyString)))
           (pbs_adapter ∅) "job.sh" (PStr "1234") eq_refl).
  eexists _, _. split; reflexivity.
Defined.




(** ** More on job identifiers *)

Lemma app_Empty_r (s : string) : s +:+ EmptyString = s.
Proof.
  induction s as [|c r IH]; [reflexivity|]. rewrite app_String, IH. reflexivity.
Qed.

(** A number that is not negative is printed as a run of digits. *)
Lemma pretty_digit_run (n : Z) : 0 ≤ n → is_digit_run (pretty n) = true.
Proof.
  intros Hn. destruct n as [|p|p]; [reflexivity| |lia].
  unfold pretty, pretty_Z, pretty, pretty_positive, pretty, pretty_N.
  rewrite decide_False by done.
  destruct (digits_value_pretty_go (N.pos p) EmptyString) as (k & _ & Hgo).
  specialize (Hgo 0). cbn [Py.digits_value] in Hgo.
  unfold is_digit_run. apply andb_true_iff. split.
  - apply negb_true_iff, bool_decide_eq_false. intros Hempty.
    rewrite Hempty in Hgo. cbn in Hgo. injection Hgo as Hgo. lia.
  - destruct (all_chars Py.isdigit (pretty_N_go (N.pos p) EmptyString)) eqn:Hall;
      [reflexivity|].
    apply (digits_value_None 0) in Hall. rewrite Hall in Hgo. discriminate.
Qed.

(** X12. The branch of [_parse_jobid] for PBS and SGE reads the
    confirmation of [sbatch] as well: it returns the digits of the job
    number, which [int] reads back as the number that the branch for
    SLURM returns. *)
Theorem generic_jobid_of_sbatch_confirmation (self : adapter) (n : Z) :
  q_type self ≠ "SLURM" → 0 ≤ n →
  _parse_jobid self ("Submitted batch job " +:+ pretty n) = Ok (PStr (pretty n))
  ∧ Py.int (pretty n) = Ok n.
Proof.
  intros Hq Hn. split; [|apply int_pretty].
  unfold _parse_jobid. rewrite bool_decide_false by done.
  rewrite <-(app_Empty_r (pretty n)) at 1.
  rewrite search_digits_first;
    [reflexivity | reflexivity | by apply pretty_digit_run | reflexivity].
Qed.

Lemma generic_jobid_of_sbatch_confirmation_witness :
  _parse_jobid (pbs_adapter ∅) "Submitted batch job 123456" = Ok (PStr "123456")
  ∧ Py.int "123456" = Ok 123456.
Proof.
  apply (generic_jobid_of_sbatch_confirmation (pbs_adapter ∅) 123456);
    [discriminate | lia].
Defined.

(** ** More on construction and serialisation *)

(** X13. Every adapter that [__init__] builds has a supported queue type,
    the submit command of that type, a queue name that counts as true
    (the queue type where none was given), and the keyword arguments as
    its entries. *)
Theorem init_invariants
    (abspath : string → string) (module_dir : string)
    (q_type0 q_name0 template : pyval) (kwargs : gmap string pyval)
    (a : adapter) :
  __init__ abspath module_dir q_type0 q_name0 template kwargs = Ok a →
  q_type0 = PStr (q_type a)
  ∧ q_type a ∈ ["PBS"; "SGE"; "SLURM"]
  ∧ (submit_cmd a = "sbatch" ↔ q_type a = "SLURM")
  ∧ (submit_cmd a = "qsub" ↔ q_type a ≠ "SLURM")
  ∧ Py.truthy (q_name a) = true
  ∧ (Py.truthy q_name0 = true → q_name a = q_name0)
  ∧ (Py.truthy q_name0 = false → q_name a = PStr (q_type a))
  ∧ (template = PNone →
     template_file a = _get_default_template_file module_dir (q_type a))
  ∧ items a = kwargs.
Proof.
  intros (t & tf & -> & Ht & Htf & ->)%init_Ok. cbn.
  split_conj; try done.
  - case_bool_decide; split; done.
  - case_bool_decide; split; done.
  - destruct (Py.truthy q_name0) eqn:Hq; [exact Hq|].
    apply supported_cases in Ht as [->| [->| ->]]; reflexivity.
  - intros ->. reflexivity.
  - intros ->. reflexivity.
  - intros ->. exact Htf.
Qed.

Lemma init_invariants_witness :
  ∃ a, __init__ home_abspath site_dir (PStr "SGE") (PStr EmptyString) PNone
         {["queue" := PStr "all.q"]} = Ok a
       ∧ q_name a = PStr "SGE" ∧ submit_cmd a = "qsub"
       ∧ template_file a
         = "/opt/fireworks/user_objects/queue_adapters/SGE_template.txt".
Proof.
  eexists. split; [reflexivity|].
  destruct (init_invariants home_abspath site_dir (PStr "SGE")
              (PStr EmptyString) PNone {["queue" := PStr "all.q"]} _ eq_refl)
    as (_ & _ & _ & Hcmd & _ & _ & Hname & Htf & _).
  split; [exact (Hname eq_refl)|]. split; [by apply Hcmd|].
  exact (Htf eq_refl).
Defined.

(** X14. [from_dict] fails with a [KeyError] exactly when the dictionary
    has no entry [_fw_q_type], and then for that key. *)
Theorem from_dict_key_error_iff
    (abspath : string → string) (module_dir : string)
    (m_dict : gmap string pyval) (k : string) :
  from_dict abspath module_dir m_dict = Raise (KeyError k)
  ↔ k = "_fw_q_type" ∧ m_dict !! "_fw_q_type" = None.
Proof.
  unfold from_dict. destruct (m_dict !! "_fw_q_type") as [qt|].
  2:{ split; [by intros [= <-] | by intros [-> _]]. }
  split; [|by intros [_ ?]].
  destruct (bindable _); [|done]. unfold __init__.
  destruct qt as [| |t]; [done|done|].
  destruct (bool_decide _); [|done].
  destruct (Py.dict_get m_dict "_fw_template_file"); done.
Qed.

(** An entry whose key starts with [_fw] is no keyword argument. *)
Lemma filter_not_fw_insert (m : gmap string pyval) k v :
  Py.startswith k "_fw" = true →
  filter not_fw (<[k := v]> m) = filter not_fw m.
Proof.
  intros Hk. apply map_eq. intros j. rewrite !filter_not_fw_lookup.
  destruct (Py.startswith j "_fw") eqn:Hj; [reflexivity|].
  apply lookup_insert_ne. intros <-. congruence.
Qed.

(** X15. [from_dict] reads three of the entries whose key starts with
    [_fw] and ignores every other one, such as the [_fw_name] that the
    serialisation adds. *)
Theorem from_dict_ignores_other_fw_keys
    (abspath : string → string) (module_dir : string)
    (m_dict : gmap string pyval) (k : string) (v : pyval) :
  Py.startswith k "_fw" = true →
  k ∉ ["_fw_q_type"; "_fw_q_name"; "_fw_template_file"] →
  from_dict abspath module_dir (<[k := v]> m_dict)
  = from_dict abspath module_dir m_dict.
Proof.
  intros Hk Hnot. rewrite !not_elem_of_cons in Hnot.
  destruct Hnot as (H1 & H2 & H3 & _).
  unfold from_dict, Py.dict_get.
  rewrite filter_not_fw_insert by exact Hk.
  rewrite !lookup_insert_ne by done. reflexivity.
Qed.

Lemma from_dict_ignores_other_fw_keys_witness :
  from_dict home_abspath site_dir
    (<["_fw_name" := PStr "CommonAdapter"]> {["_fw_q_type" := PStr "PBS"]})
  = from_dict home_abspath site_dir {["_fw_q_type" := PStr "PBS"]}.
Proof.
  apply (from_dict_ignores_other_fw_keys home_abspath site_dir
           {["_fw_q_type" := PStr "PBS"]} "_fw_name" (PStr "CommonAdapter")).
  - reflexivity.
  - intros Hin.
    repeat (apply elem_of_cons in Hin as [Hin|Hin]; [discriminate|]).
    by apply elem_of_nil in Hin.
Defined.

(** X16. A dictionary with an entry named like a parameter of [__init__]
    cannot be read: the call of the class gets two values for that
    parameter, a [TypeError], whatever the other entries are. *)
Theorem from_dict_parameter_name_clash
    (abspath : string → string) (module_dir : string)
    (m_dict : gmap string pyval) (k : string) :
  is_Some (m_dict !! "_fw_q_type") →
  k ∈ ["self"; "q_type"; "q_name"; "template_file"] →
  is_Some (m_dict !! k) →
  from_dict abspath module_dir m_dict = Raise TypeError.
Proof.
  intros [qt Hqt] Hk [v Hv]. unfold from_dict. rewrite Hqt.
  assert (Hb : bindable (filter not_fw m_dict) = false).
  { unfold bindable, init_params. apply not_true_is_false. intros Hall.
    rewrite forallb_forall in Hall.
    rewrite !elem_of_cons, elem_of_nil in Hk.
    assert (Hin : In k ["self"; "q_type"; "q_name"; "template_file"]).
    { destruct Hk as [->| [->| [->| [->| []]]]]; simpl; auto. }
    specialize (Hall k Hin). apply bool_decide_eq_true in Hall.
    rewrite filter_not_fw_lookup in Hall.
    assert (Hfw : Py.startswith k "_fw" = false).
    { destruct Hk as [->| [->| [->| [->| []]]]]; reflexivity. }
    rewrite Hfw in Hall. congruence. }
  rewrite Hb. reflexivity.
Qed.

Lemma from_dict_parameter_name_clash_witness :
  from_dict home_abspath site_dir
    {["_fw_q_type" := PStr "PBS"; "q_name" := PStr "short"]}
  = Raise TypeError.
Proof.
  apply (from_dict_parameter_name_clash home_abspath site_dir
           {["_fw_q_type" := PStr "PBS"; "q_name" := PStr "short"]} "q_name").
  - eexists. reflexivity.
  - rewrite !elem_of_cons. auto.
  - eexists. reflexivity.
Defined.

(** X17. Defaults are not written: for an adapter built without a queue
    name and without a template, [to_dict] adds the queue type to the
    keyword arguments and nothing else. *)
Theorem to_dict_leaves_defaults_out
    (abspath : string → string) (module_dir : string)
    (q_type0 q_name0 : pyval) (kwargs : gmap string pyval) (a : adapter) :
  __init__ abspath module_dir q_type0 q_name0 PNone kwargs = Ok a →
  Py.truthy q_name0 = false →
  to_dict_body module_dir a = <["_fw_q_type" := q_type0]> kwargs.
Proof.
  intros (t & tf & -> & Ht & -> & ->)%init_Ok Hname.
  unfold to_dict_body. cbn. rewrite Hname.
  rewrite !bool_decide_false by (intros Hne; by apply Hne). reflexivity.
Qed.

Lemma to_dict_leaves_defaults_out_witness :
  to_dict_body site_dir (pbs_adapter {["queue" := PStr "batch"]})
  = <["_fw_q_type" := PStr "PBS"]> {["queue" := PStr "batch"]}.
Proof.
  apply (to_dict_leaves_defaults_out home_abspath site_dir (PStr "PBS") PNone
           {["queue" := PStr "batch"]}); reflexivity.
Defined.

Section Normalisation.

Variable abspath : string → string.
Variable module_dir : string.
Variable serialize_fw : gmap string pyval → gmap string pyval.
Hypothesis abspath_idem : ∀ p, abspath (abspath p) = abspath p.
Hypothesis serialize_fw_keeps : ∀ d k,
  Py.startswith k "_fw" = false ∨ k ∈ reserved_keys →
  serialize_fw d !! k = d !! k.

(** X18. Whatever dictionary it came from, an adapter that [from_dict]
    built is built again from its own [to_dict]: reading a dictionary
    drops what a round trip can lose. *)
Theorem from_dict_result_round_trips (m_dict : gmap string pyval) (b : adapter) :
  from_dict abspath module_dir m_dict = Ok b →
  from_dict abspath module_dir (to_dict module_dir serialize_fw b) = Ok b.
Proof.
  unfold from_dict at 1.
  destruct (m_dict !! "_fw_q_type") as [qt|]; [|done].
  destruct (bindable (filter not_fw m_dict)) eqn:Hbind; [|done].
  intros Hinit.
  eapply (round_trip_of_init abspath module_dir serialize_fw abspath_idem
            serialize_fw_keeps); [exact Hbind | | exact Hinit].
  intros k [v Hk]. rewrite filter_not_fw_lookup in Hk.
  destruct (Py.startswith k "_fw"); [discriminate|reflexivity].
Qed.

End Normalisation.

Lemma from_dict_result_round_trips_witness :
  ∃ b, from_dict home_abspath site_dir
         {["_fw_q_type" := PStr "PBS"; "_fw_q_name" := PStr "mine";
           "_fw_name" := PStr "CommonAdapter"; "queue" := PStr "batch"]} = Ok b
       ∧ q_name b = PStr "mine"
       ∧ from_dict home_abspath site_dir (to_dict site_dir fw_name_decorator b)
         = Ok b.
Proof.
  eexists. split; [vm_compute; reflexivity|]. split; [reflexivity|].
  apply (from_dict_result_round_trips home_abspath site_dir fw_name_decorator
           home_abspath_idem fw_name_decorator_keeps
           {["_fw_q_type" := PStr "PBS"; "_fw_q_name" := PStr "mine";
             "_fw_name" := PStr "CommonAdapter"; "queue" := PStr "batch"]}).
  vm_compute. reflexivity.
Defined.
